(** * carbonzipper: the HTTP boundary layer of the metrics aggregator

    A shallow embedding of [cmd/carbonzipper/main.go]: the three request
    handlers ([findHandler], [renderHandler], [infoHandler]), the response
    encoders, the statistics folding ([sendStats]), the request-time
    histogram ([bucketRequestTimes]) and the startup sequence ([main]).

    Conventions.
    - Go's fixed-width integers are [Z] with the wrap-around written out
      ([GoInt.wrap]); [int] has [intSize] bits (32 or 64, a parameter).
    - A run-time panic (index out of range) is [None].
    - The engine ([config.zipper]) is an oracle: a record of functions giving
      the outcome of each call.  Every handler run makes at most one engine
      call, and each call is appended to the [calls] log of the world.
    - Logging and wall-clock measurements carry no data any handler branches
      on; they are left out, except where a log call ends the process
      ([Fatal]) or is the only trace of a branch ([Warn "Slow Request"]). *)

From Stdlib Require Import ZArith String Ascii List Lia Bool PrimFloat.
From stdpp Require Import base option list gmap strings.

Local Open Scope string_scope.
Local Open Scope Z_scope.

(* ===================================================================== *)
(** ** Machine integers *)
(* ===================================================================== *)

Module GoInt.

(** Two's-complement reduction of [z] into a signed [bits]-bit integer. *)
Definition wrap (bits z : Z) : Z :=
  (z + 2 ^ (bits - 1)) mod 2 ^ bits - 2 ^ (bits - 1).

Definition inRange (bits z : Z) : bool :=
  (- 2 ^ (bits - 1) <=? z) && (z <? 2 ^ (bits - 1)).

(** The conversions [int32(x)] and [int64(x)]. *)
Definition int32 : Z -> Z := wrap 32.
Definition int64 : Z -> Z := wrap 64.

(** [x << n] on [int64] for a shift count [n >= 0]; counts of 64 and more
    give 0, as in Go. *)
Definition shl64 (x n : Z) : Z := int64 (Z.shiftl x n).

(** Go's integer division truncates toward zero. *)
Definition div64 (x y : Z) : Z := int64 (Z.quot x y).

End GoInt.

(* ===================================================================== *)
(** ** strconv.Atoi *)
(* ===================================================================== *)

Module strconv.

(** Go standard library, base 10: an optional sign, then at least one
    ASCII digit and nothing else; a value outside the [int] range is a
    range error.  Both errors are [None]. *)

Definition digit (c : ascii) : option Z :=
  let n := Z.of_N (N_of_ascii c) in
  if (48 <=? n) && (n <=? 57) then Some (n - 48) else None.

Fixpoint digits (acc : Z) (s : string) : option Z :=
  match s with
  | EmptyString => Some acc
  | String c rest =>
      match digit c with
      | Some d => digits (acc * 10 + d) rest
      | None => None
      end
  end.

Definition isSign (c : ascii) : bool :=
  (Ascii.eqb c "-"%char) || (Ascii.eqb c "+"%char).

Definition Atoi (intSize : Z) (s : string) : option Z :=
  match s with
  | EmptyString => None
  | String c rest =>
      let body := if isSign c then rest else s in
      match body with
      | EmptyString => None
      | _ =>
          match digits 0 body with
          | Some n =>
              let v := if Ascii.eqb c "-"%char then - n else n in
              if GoInt.inRange intSize v then Some v else None
          | None => None
          end
      end
  end.

End strconv.

(* ===================================================================== *)
(** ** Wire types (carbonapi_v2_pb) and engine types (zipper) *)
(* ===================================================================== *)

Module pb3.

Record GlobMatch := { Path : string; IsLeaf : bool }.

Record GlobResponse := { GlobName : string; Matches : list GlobMatch }.

Record FetchResponse := {
  Name : string;
  StartTime : Z;
  StopTime : Z;
  StepTime : Z;
  Values : list float;
  IsAbsent : list bool
}.

(** A nil [*MultiFetchResponse] has no metrics ([GetMetrics] is nil-safe). *)
Record MultiFetchResponse := { GetMetrics : list FetchResponse }.

Record Retention := { SecondsPerPoint : Z; NumberOfPoints : Z }.

Record InfoResponse := {
  InfoName : string;
  AggregationMethod : string;
  MaxRetention : Z;
  XFilesFactor : float;
  Retentions : list Retention
}.

(** A pointer is an address in a store of [InfoResponse] cells; nil is
    [None]. *)
Definition addr := nat.

Record ServerInfoResponse := { Server : string; Info : option addr }.

Definition zeroServerInfoResponse : ServerInfoResponse :=
  {| Server := ""; Info := None |}.

Record ZipperInfoResponse := { Responses : list ServerInfoResponse }.

End pb3.

Module zipper.

Record Stats := {
  Timeouts : Z;
  FindErrors : Z;
  RenderErrors : Z;
  InfoErrors : Z;
  SearchRequests : Z;
  SearchCacheHits : Z;
  SearchCacheMisses : Z;
  CacheMisses : Z;
  CacheHits : Z
}.

Record CarbonSearch := { Backend : string; Prefix : string }.

Record TimeoutsT := { Global : Z; AfterStarted : Z; Connect : Z }.

Definition error := string.

(** The engine as the handlers see it: the outcome of each operation.
    The iteration sequence of the map returned by [Info] is part of the
    outcome (Go leaves the order of [range] over a map unspecified). *)
Record Zipper := {
  Find : string -> list pb3.GlobMatch * Stats * option error;
  Render : string -> Z -> Z -> pb3.MultiFetchResponse * Stats * option error;
  Info : string -> list (string * pb3.InfoResponse) * Stats * option error
}.

Inductive Call :=
| CallFind (query : string)
| CallRender (target : string) (from until : Z)
| CallInfo (target : string).

End zipper.

(* ===================================================================== *)
(** ** Process-wide counters (expvar) *)
(* ===================================================================== *)

Module Metrics.

(** The [*expvar.Int] members of the [Metrics] struct. *)
Inductive Counter :=
| Requests | Responses | Errors
| FindRequests | FindErrors
| SearchRequests
| RenderRequests | RenderErrors
| InfoRequests | InfoErrors
| Timeouts
| CacheMisses | CacheHits
| SearchCacheMisses | SearchCacheHits.

#[global] Instance Counter_eq_dec : EqDecision Counter.
Proof. solve_decision. Defined.

(** The name each counter is published under ([expvar.NewInt]). *)
Definition expvarName (c : Counter) : string :=
  match c with
  | Requests => "requests" | Responses => "responses" | Errors => "errors"
  | FindRequests => "find_requests" | FindErrors => "find_errors"
  | SearchRequests => "search_requests"
  | RenderRequests => "render_requests" | RenderErrors => "render_errors"
  | InfoRequests => "info_requests" | InfoErrors => "info_errors"
  | Timeouts => "timeouts"
  | CacheHits => "cache_hits" | CacheMisses => "cache_misses"
  | SearchCacheHits => "search_cache_hits"
  | SearchCacheMisses => "search_cache_misses"
  end.

(** The value of every counter; [expvar.Int] holds an [int64]. *)
Definition T := Counter -> Z.

Definition zero : T := fun _ => 0.

(** [c.Add(delta)]: an atomic [int64] addition. *)
Definition Add (c : Counter) (delta : Z) (m : T) : T :=
  fun c' => if decide (c' = c) then GoInt.int64 (m c' + delta) else m c'.

End Metrics.

(* ===================================================================== *)
(** ** Values handed to the encoders, and the response writer *)
(* ===================================================================== *)

(** The dynamic values ([interface{}]) the handlers put into their
    [map[string]interface{}] responses. *)
#[warning="-register-all"]
Inductive iface :=
| INil                                  (* nil, JSON null *)
| IPickleNone                           (* pickle.None{} *)
| IBool (b : bool)
| IInt32 (n : Z)
| IFloat64 (f : float)
| IString (s : string)
| IIntervalSet (Start End : Z)          (* *intervalset.IntervalSet *)
| ISlice (l : list iface).              (* []interface{} *)

(** What a handler hands to an encoder or writes itself. *)
Inductive Payload :=
| PText (s : string)
| PProtoGlob (r : pb3.GlobResponse)
| PProtoFetch (r : pb3.MultiFetchResponse)
| PProtoInfo (r : list (string * option pb3.InfoResponse))
| PJSONGlob (l : list pb3.GlobMatch)
| PJSONMaps (l : list (gmap string iface))
| PJSONInfo (l : list (string * pb3.InfoResponse))
| PPickleMaps (l : list (gmap string iface)).

(** [http.ResponseWriter]: the header map, the status line once it has
    been sent, and what was written to the body. *)
Record ResponseWriter := {
  header : gmap string string;
  status : option Z;
  body : list Payload
}.

Definition newResponseWriter : ResponseWriter :=
  {| header := ∅; status := None; body := [] |}.

Definition HeaderSet (k v : string) (w : ResponseWriter) : ResponseWriter :=
  {| header := <[k := v]> (header w); status := status w; body := body w |}.

(** The first [WriteHeader] fixes the status; later ones are ignored. *)
Definition WriteHeader (code : Z) (w : ResponseWriter) : ResponseWriter :=
  {| header := header w;
     status := match status w with Some c => Some c | None => Some code end;
     body := body w |}.

(** [Write] sends status 200 first when no status has been sent. *)
Definition Write (b : list Payload) (w : ResponseWriter) : ResponseWriter :=
  let w' := WriteHeader 200 w in
  {| header := header w'; status := status w'; body := body w' ++ b |}.

Definition StatusOK : Z := 200.
Definition StatusBadRequest : Z := 400.
Definition StatusInternalServerError : Z := 500.

Definition newline : string := String "010"%char "".

(** [http.Error(w, msg, code)]; the message is written with
    [fmt.Fprintln]. *)
Definition httpError (msg : string) (code : Z) (w : ResponseWriter)
  : ResponseWriter :=
  Write [PText (msg ++ newline)]
    (WriteHeader code
       (HeaderSet "X-Content-Type-Options" "nosniff"
          (HeaderSet "Content-Type" "text/plain; charset=utf-8" w))).

(** [http.Request] as the handlers use it: the form values, and whether
    [ParseForm] reports an error (it still fills in what it could parse). *)
Record Request := {
  Form : gmap string (list string);
  ParseFormErr : option zipper.error
}.

Definition FormValue (req : Request) (key : string) : string :=
  match Form req !! key with
  | Some (v :: _) => v
  | _ => ""
  end.

(* ===================================================================== *)
(** ** Configuration and constants *)
(* ===================================================================== *)

Record GraphiteConfig := {
  Pattern : string;
  Host : string;
  Interval : Z;
  GraphitePrefix : string
}.

Record LoggerConfig := {
  LoggerName : string; File : string; Level : string; Encoding : string;
  EncodingTime : string; EncodingDuration : string
}.

Record Config := {
  Backends : list string;
  MaxProcs : Z;
  Graphite : GraphiteConfig;
  Listen : string;
  Buckets : Z;
  Timeouts : zipper.TimeoutsT;
  KeepAliveInterval : Z;
  CarbonSearch : zipper.CarbonSearch;
  MaxIdleConnsPerHost : Z;
  ConcurrencyLimitPerServer : Z;
  ExpireDelaySec : Z;
  Logger : list LoggerConfig;
  GraphiteWeb09Compatibility : bool
}.

Definition contentTypeJSON := "application/json".
Definition contentTypeProtobuf := "application/x-protobuf".
Definition contentTypePickle := "application/pickle".

Definition formatTypeEmpty := "".
Definition formatTypePickle := "pickle".
Definition formatTypeJSON := "json".
Definition formatTypeProtobuf := "protobuf".
Definition formatTypeProtobuf3 := "protobuf3".

(** The format names the handlers' [switch format] statements list in
    their arms; [FOther] is a format no arm names. *)
Inductive Format := FProtobuf | FJSON | FPickle | FEmpty | FOther.

Definition classify (format : string) : Format :=
  if decide (format = formatTypeProtobuf) then FProtobuf
  else if decide (format = formatTypeProtobuf3) then FProtobuf
  else if decide (format = formatTypeJSON) then FJSON
  else if decide (format = formatTypePickle) then FPickle
  else if decide (format = formatTypeEmpty) then FEmpty
  else FOther.

(* ===================================================================== *)
(** ** Handler effects *)
(* ===================================================================== *)

(** What a handler run can change: the process-wide counters, the response
    being written, and the log of engine calls made. *)
Record World := {
  metrics : Metrics.T;
  writer : ResponseWriter;
  calls : list zipper.Call
}.

Definition newWorld (m : Metrics.T) : World :=
  {| metrics := m; writer := newResponseWriter; calls := [] |}.

(** A small state monad with an early exit: a statement either falls
    through with a value or stops the run with a reason. *)
Inductive outcome (E A : Type) :=
| Continue (a : A)
| Stop (e : E).
Arguments Continue {E A} a.
Arguments Stop {E A} e.

Definition prog (S E A : Type) : Type := S -> S * outcome E A.

Definition hret {S E A} (a : A) : prog S E A := fun w => (w, Continue a).

Definition hbind {S E A B} (c : prog S E A) (k : A -> prog S E B) : prog S E B :=
  fun w =>
    match c w with
    | (w', Continue a) => k a w'
    | (w', Stop e) => (w', Stop e)
    end.

Definition hstop {S E A} (e : E) : prog S E A := fun w => (w, Stop e).

Notation "x <- c ;; k" := (hbind c (fun x => k))
  (at level 100, c at next level, right associativity).
Notation "c ;; k" := (hbind c (fun _ => k))
  (at level 100, right associativity).

Definition when {S E} (b : bool) (c : prog S E unit) : prog S E unit :=
  if b then c else hret tt.

(** The state a run leaves behind, however it ended. *)
Definition exec {S E A} (h : prog S E A) (w : S) : S := fst (h w).

(** A handler stops by executing [return] or by panicking. *)
Inductive Halt := Return | Panic.

Definition handler (A : Type) : Type := prog World Halt A.

Definition hreturn {A} : handler A := hstop Return.
Definition hpanic {A} : handler A := hstop Panic.

Definition onMetrics (f : Metrics.T -> Metrics.T) : handler unit :=
  fun w => ({| metrics := f (metrics w); writer := writer w; calls := calls w |},
            Continue tt).

Definition onWriter (f : ResponseWriter -> ResponseWriter) : handler unit :=
  fun w => ({| metrics := metrics w; writer := f (writer w); calls := calls w |},
            Continue tt).

Definition logCall (c : zipper.Call) : handler unit :=
  fun w => ({| metrics := metrics w; writer := writer w; calls := calls w ++ [c] |},
            Continue tt).

Definition isErr {E} (e : option E) : bool :=
  match e with Some _ => true | None => false end.

(* ===================================================================== *)
(** ** The request-time histogram *)
(* ===================================================================== *)

(** The [for] loop of [bucketRequestTimes]: [bucket] is the loop variable,
    [limit] is [config.Buckets+1], [n] bounds the iterations left.  The
    comparison is on [int64]: [ms >= 50*(1<<uint(bucket))]. *)
Fixpoint bucketLoop (ms limit : Z) (n : nat) (bucket : Z) : Z :=
  match n with
  | O => bucket
  | S n' =>
      if bucket <? limit then
        if ms >=? GoInt.int64 (50 * GoInt.shl64 1 bucket)
        then bucket - 1                                   (* bucket--; break *)
        else bucketLoop ms limit n' (bucket + 1)          (* bucket++ *)
      else bucket
  end.

(** [atomic.AddInt64(&timeBuckets[i], 1)]; an index out of range panics. *)
Definition addBucket (timeBuckets : list Z) (i : Z) : option (list Z) :=
  if (0 <=? i) && (i <? Z.of_nat (length timeBuckets)) then
    x ← timeBuckets !! Z.to_nat i;
    Some (<[Z.to_nat i := GoInt.int64 (x + 1)]> timeBuckets)
  else None.

Section BucketRequestTimes.

Variable intSize : Z.
Variable configBuckets : Z.

(** [t] is the duration in nanoseconds.  The result is the new
    [timeBuckets] and whether "Slow Request" was logged; [None] is a
    panic. *)
Definition bucketRequestTimes (timeBuckets : list Z) (t : Z)
  : option (list Z * bool) :=
  let ms := GoInt.div64 t 1000000 in
  let limit := GoInt.wrap intSize (configBuckets + 1) in
  let bucket := bucketLoop ms limit (Z.to_nat limit) 0 in
  if bucket <? configBuckets then
    tb ← addBucket timeBuckets bucket; Some (tb, false)
  else
    tb ← addBucket timeBuckets configBuckets; Some (tb, true).

(** The bounds [main] gives bucket [i] when it registers it as
    [requests_in_<lower>ms_to_<upper>ms]. *)
Definition bucketLower (i : Z) : Z :=
  if i =? 0 then 0
  else GoInt.wrap intSize (50 * GoInt.wrap intSize (Z.shiftl 1 (i - 1))).

Definition bucketUpper (i : Z) : Z :=
  GoInt.wrap intSize (50 * GoInt.wrap intSize (Z.shiftl 1 i)).

End BucketRequestTimes.

(* ===================================================================== *)
(** ** Response construction *)
(* ===================================================================== *)

(** The inner loop of [createRenderResponse], from position [i] on:
    [metric.IsAbsent[i]] panics when [i] is out of range. *)
Fixpoint pvaluesFrom (missing : iface) (isAbsent : list bool) (i : nat)
    (values : list float) : option (list iface) :=
  match values with
  | [] => Some []
  | v :: rest =>
      match (isAbsent !! i : option bool) with
      | None => None
      | Some absent =>
          match pvaluesFrom missing isAbsent (S i) rest with
          | None => None
          | Some pvalues =>
              Some ((if absent then missing else IFloat64 v) :: pvalues)
          end
      end
  end.

Definition renderEntry (missing : iface) (metric : pb3.FetchResponse)
  : option (gmap string iface) :=
  match pvaluesFrom missing (pb3.IsAbsent metric) 0 (pb3.Values metric) with
  | None => None
  | Some pvalues =>
      Some ({[ "start" := IInt32 (pb3.StartTime metric);
               "step" := IInt32 (pb3.StepTime metric);
               "end" := IInt32 (pb3.StopTime metric);
               "name" := IString (pb3.Name metric);
               "values" := ISlice pvalues ]} : gmap string iface)
  end.

Fixpoint renderEntries (missing : iface) (l : list pb3.FetchResponse)
  : option (list (gmap string iface)) :=
  match l with
  | [] => Some []
  | metric :: rest =>
      match renderEntry missing metric with
      | None => None
      | Some presponse =>
          match renderEntries missing rest with
          | None => None
          | Some response => Some (presponse :: response)
          end
      end
  end.

Definition createRenderResponse (metrics : pb3.MultiFetchResponse)
    (missing : iface) : option (list (gmap string iface)) :=
  renderEntries missing (pb3.GetMetrics metrics).

(** The [range infos] loop of [infoHandler]'s protobuf arm.  The store
    [st] behind the [*pb3.InfoResponse] pointers maps addresses to cells;
    [cell] is the address of the loop variable [i], and [r.Info = &i]
    stores that address.  With [perIteration] every iteration has a
    variable of its own (Go from 1.22 on, for modules that ask for it);
    without it the loop has one. *)
Fixpoint infoLoop (perIteration : bool) (infos : list (string * pb3.InfoResponse))
    (cell : pb3.addr) (st : gmap nat pb3.InfoResponse)
    (responses : list pb3.ServerInfoResponse)
  : gmap nat pb3.InfoResponse * list pb3.ServerInfoResponse :=
  match infos with
  | [] => (st, responses)
  | (s, i) :: rest =>
      let st' := <[cell := i]> st in
      let r := {| pb3.Server := s; pb3.Info := Some cell |} in
      infoLoop perIteration rest (if perIteration then S cell else cell) st'
        (responses ++ [r])
  end.

Definition buildInfoResponse (perIteration : bool)
    (infos : list (string * pb3.InfoResponse))
  : gmap nat pb3.InfoResponse * pb3.ZipperInfoResponse :=
  (* make([]pb3.ServerInfoResponse, len(infos)) *)
  let responses := replicate (length infos) pb3.zeroServerInfoResponse in
  let '(st, rs) := infoLoop perIteration infos 0%nat ∅ responses in
  (st, {| pb3.Responses := rs |}).

(** What [result.Marshal()] sees: every pointer followed at that time. *)
Definition deref (st : gmap nat pb3.InfoResponse) (r : pb3.ServerInfoResponse)
  : string * option pb3.InfoResponse :=
  (pb3.Server r, a ← pb3.Info r; st !! a).

Definition marshalView (sr : gmap nat pb3.InfoResponse * pb3.ZipperInfoResponse)
  : list (string * option pb3.InfoResponse) :=
  map (deref (fst sr)) (pb3.Responses (snd sr)).

(* ===================================================================== *)
(** ** The handlers *)
(* ===================================================================== *)

Section Handlers.

(** The platform's [int] width. *)
Variable intSize : Z.
(** The global [config], and the engine it holds in [config.zipper]. *)
Variable config : Config.
Variable z : zipper.Zipper.
(** The error, if any, an encoder reports for a payload. *)
Variable marshalErr : Payload -> option zipper.error.
(** [time.Now().Unix()] when the response is encoded. *)
Variable unixNow : Z.
(** Whether [range] gives every iteration its own variable. *)
Variable loopvarPerIteration : bool.

Definition sendStats (stats : zipper.Stats) : handler unit :=
  onMetrics (Metrics.Add Metrics.Timeouts (zipper.Timeouts stats)) ;;
  onMetrics (Metrics.Add Metrics.FindErrors (zipper.FindErrors stats)) ;;
  onMetrics (Metrics.Add Metrics.RenderErrors (zipper.RenderErrors stats)) ;;
  onMetrics (Metrics.Add Metrics.InfoErrors (zipper.InfoErrors stats)) ;;
  onMetrics (Metrics.Add Metrics.SearchRequests (zipper.SearchRequests stats)) ;;
  onMetrics (Metrics.Add Metrics.SearchCacheHits (zipper.SearchCacheHits stats)) ;;
  onMetrics (Metrics.Add Metrics.SearchCacheMisses (zipper.SearchCacheMisses stats)) ;;
  onMetrics (Metrics.Add Metrics.CacheMisses (zipper.CacheMisses stats)) ;;
  onMetrics (Metrics.Add Metrics.CacheHits (zipper.CacheHits stats)).

(** The three engine operations, each logged as it is invoked. *)
Definition zipperFind (query : string) :=
  logCall (zipper.CallFind query) ;; hret (zipper.Find z query).

Definition zipperRender (target : string) (from until : Z) :=
  logCall (zipper.CallRender target from until) ;;
  hret (zipper.Render z target from until).

Definition zipperInfo (target : string) :=
  logCall (zipper.CallInfo target) ;; hret (zipper.Info z target).

(** [b, err = x.Marshal(); w.Write(b)]: the write happens either way. *)
Definition marshalAndWrite (p : Payload) : handler (option zipper.error) :=
  let err := marshalErr p in
  onWriter (Write (if isErr err then [] else [p])) ;;
  hret err.

(** [err = enc.Encode(x)] on an encoder over [w]: nothing is written
    when the encoder fails. *)
Definition encode (p : Payload) : handler (option zipper.error) :=
  match marshalErr p with
  | Some e => hret (Some e)
  | None => onWriter (Write [p]) ;; hret None
  end.

(** The map built for one match in the pickle arm. *)
Definition findEntry (now : Z) (metric : pb3.GlobMatch) : gmap string iface :=
  if GraphiteWeb09Compatibility config then
    {[ "metric_path" := IString (pb3.Path metric);
       "isLeaf" := IBool (pb3.IsLeaf metric) ]}
  else
    {[ "is_leaf" := IBool (pb3.IsLeaf metric);
       "path" := IString (pb3.Path metric);
       "intervals" := IIntervalSet 0 now ]}.

Definition encodeFindResponse (format query : string)
    (metrics : list pb3.GlobMatch) : handler (option zipper.error) :=
  match classify format with
  | FProtobuf =>
      onWriter (HeaderSet "Content-Type" contentTypeProtobuf) ;;
      marshalAndWrite
        (PProtoGlob {| pb3.GlobName := query; pb3.Matches := metrics |})
  | FJSON =>
      onWriter (HeaderSet "Content-Type" contentTypeJSON) ;;
      encode (PJSONGlob metrics)
  | FEmpty | FPickle =>
      onWriter (HeaderSet "Content-Type" contentTypePickle) ;;
      let now := GoInt.int32 (GoInt.int64 (unixNow + 60)) in
      encode (PPickleMaps (map (findEntry now) metrics))
  | FOther => hret None
  end.

Definition findHandler (req : Request) : handler unit :=
  let originalQuery := FormValue req "query" in
  let format := FormValue req "format" in
  onMetrics (Metrics.Add Metrics.Requests 1) ;;
  onMetrics (Metrics.Add Metrics.FindRequests 1) ;;
  r <- zipperFind originalQuery ;;
  let '(metrics, stats, err) := r in
  sendStats stats ;;
  when (isErr err)
    (onWriter (httpError "error fetching the data" StatusInternalServerError) ;;
     onMetrics (Metrics.Add Metrics.Errors 1) ;;
     hreturn) ;;
  err <- encodeFindResponse format originalQuery metrics ;;
  when (isErr err)
    (onWriter (httpError "error marshaling data" StatusInternalServerError) ;;
     onMetrics (Metrics.Add Metrics.Errors 1) ;;
     hreturn) ;;
  onMetrics (Metrics.Add Metrics.Responses 1).

(** The [switch format] of [renderHandler]. *)
Definition encodeRenderResponse (format : string)
    (metrics : pb3.MultiFetchResponse) : handler (option zipper.error) :=
  match classify format with
  | FProtobuf =>
      onWriter (HeaderSet "Content-Type" contentTypeProtobuf) ;;
      marshalAndWrite (PProtoFetch metrics)
  | FJSON =>
      match createRenderResponse metrics INil with
      | None => hpanic
      | Some presponse =>
          onWriter (HeaderSet "Content-Type" contentTypeJSON) ;;
          encode (PJSONMaps presponse)
      end
  | FEmpty | FPickle =>
      match createRenderResponse metrics IPickleNone with
      | None => hpanic
      | Some presponse =>
          onWriter (HeaderSet "Content-Type" contentTypePickle) ;;
          encode (PPickleMaps presponse)
      end
  | FOther => hret None
  end.

Definition badRequest (msg : string) : handler unit :=
  onWriter (httpError msg StatusBadRequest) ;;
  onMetrics (Metrics.Add Metrics.Errors 1) ;;
  hreturn.

Definition renderHandler (req : Request) : handler unit :=
  onMetrics (Metrics.Add Metrics.Requests 1) ;;
  onMetrics (Metrics.Add Metrics.RenderRequests 1) ;;
  when (isErr (ParseFormErr req)) (badRequest "failed to parse arguments") ;;
  let target := FormValue req "target" in
  let format := FormValue req "format" in
  match strconv.Atoi intSize (FormValue req "from") with
  | None => badRequest "from is not a integer"
  | Some from =>
      match strconv.Atoi intSize (FormValue req "until") with
      | None => badRequest "until is not a integer"
      | Some until =>
          when (bool_decide (target = "")) (badRequest "empty target") ;;
          r <- zipperRender target (GoInt.int32 from) (GoInt.int32 until) ;;
          let '(metrics, stats, err) := r in
          sendStats stats ;;
          when (isErr err)
            (onWriter (httpError "error fetching the data"
                                 StatusInternalServerError) ;;
             onMetrics (Metrics.Add Metrics.Errors 1) ;;
             hreturn) ;;
          err <- encodeRenderResponse format metrics ;;
          when (isErr err)
            (onWriter (httpError "error marshaling data"
                                 StatusInternalServerError) ;;
             onMetrics (Metrics.Add Metrics.Errors 1) ;;
             hreturn) ;;
          onMetrics (Metrics.Add Metrics.Responses 1)
      end
  end.

(** The [switch format] of [infoHandler]. *)
Definition encodeInfoResponse (format : string)
    (infos : list (string * pb3.InfoResponse)) : handler (option zipper.error) :=
  match classify format with
  | FProtobuf =>
      onWriter (HeaderSet "Content-Type" contentTypeProtobuf) ;;
      marshalAndWrite
        (PProtoInfo (marshalView (buildInfoResponse loopvarPerIteration infos)))
  | FEmpty | FJSON =>
      onWriter (HeaderSet "Content-Type" contentTypeJSON) ;;
      encode (PJSONInfo infos)
  | FPickle | FOther => hret None
  end.

Definition infoHandler (req : Request) : handler unit :=
  onMetrics (Metrics.Add Metrics.Requests 1) ;;
  onMetrics (Metrics.Add Metrics.InfoRequests 1) ;;
  when (isErr (ParseFormErr req)) (badRequest "failed to parse arguments") ;;
  let target := FormValue req "target" in
  let format := FormValue req "format" in
  when (bool_decide (target = "")) (badRequest "info: empty target") ;;
  r <- zipperInfo target ;;
  let '(infos, stats, err) := r in
  sendStats stats ;;
  when (isErr err)
    (onWriter (httpError "info: error processing request"
                         StatusInternalServerError) ;;
     onMetrics (Metrics.Add Metrics.Errors 1) ;;
     hreturn) ;;
  err <- encodeInfoResponse format infos ;;
  when (isErr err)
    (onWriter (httpError "error marshaling data" StatusInternalServerError) ;;
     onMetrics (Metrics.Add Metrics.Errors 1) ;;
     hreturn) ;;
  onMetrics (Metrics.Add Metrics.Responses 1).

Definition lbCheckHandler (req : Request) : handler unit :=
  onMetrics (Metrics.Add Metrics.Requests 1) ;;
  onWriter (Write [PText ("Ok" ++ newline)]) ;;
  onMetrics (Metrics.Add Metrics.Responses 1).

End Handlers.

(* ===================================================================== *)
(** ** Startup *)
(* ===================================================================== *)

Definition defaultLoggerConfig : LoggerConfig :=
  {| LoggerName := ""; File := "stdout"; Level := "info"; Encoding := "console";
     EncodingTime := "iso8601"; EncodingDuration := "seconds" |}.

(** The initial value of the global [config]; durations in nanoseconds. *)
Definition defaultConfig : Config :=
  {| Backends := [];
     MaxProcs := 1;
     Graphite := {| Pattern := "{prefix}.{fqdn}"; Host := "";
                    Interval := 60 * 1000000000;
                    GraphitePrefix := "carbon.zipper" |};
     Listen := ":8080";
     Buckets := 10;
     Timeouts := {| zipper.Global := 10000 * 1000000;
                    zipper.AfterStarted := 2 * 1000000000;
                    zipper.Connect := 200 * 1000000 |};
     KeepAliveInterval := 30 * 1000000000;
     CarbonSearch := {| zipper.Backend := ""; zipper.Prefix := "" |};
     MaxIdleConnsPerHost := 100;
     ConcurrencyLimitPerServer := 0;
     ExpireDelaySec := 10 * 60;
     Logger := [defaultLoggerConfig];
     GraphiteWeb09Compatibility := false |}.

(** What [main] asks of its environment. *)
Record StartupEnv := {
  defaultLoggerErr : bool;
  flagConfig : string;
  flagPid : string;
  readFile : string -> option string;
  (** [yaml.Unmarshal(cfg, &config)]: the file's settings laid over the
      current [config], or an error. *)
  yamlUnmarshal : string -> Config -> option Config;
  applyLoggerErr : list LoggerConfig -> bool;
  getenv : string -> string;
  pidfileWriteErr : bool;
  serveErr : bool
}.

(** The steps of [main] that reach outside the process state. *)
Inductive Event :=
| EvApplyLogger (l : list LoggerConfig)
| EvGOMAXPROCS (n : Z)
| EvPublish (name : string)
| EvNewPathCache (expireDelaySec : Z)
| EvNewZipper (backends : list string) (search : zipper.CarbonSearch)
| EvHandleFunc (pattern : string)
| EvGraphiteRegister (host : string) (buckets : list (Z * Z))
| EvPidfileWrite (path : string)
| EvServe (addr : string).

(** The package-level variables [main] sets, and the steps it has taken. *)
Record Process := {
  config : Config;
  searchConfigured : bool;
  timeBuckets : list Z;
  events : list Event
}.

Definition initialProcess : Process :=
  {| config := defaultConfig; searchConfigured := false;
     timeBuckets := []; events := [] |}.

(** [main] stops early through [Fatal] (which ends the process). *)
Definition startup (A : Type) : Type := prog Process string A.

Definition fatal {A} (msg : string) : startup A := hstop msg.

Definition emit (e : Event) : startup unit :=
  fun p => ({| config := config p; searchConfigured := searchConfigured p;
               timeBuckets := timeBuckets p; events := events p ++ [e] |},
            Continue tt).

Definition getConfig : startup Config := fun p => (p, Continue (config p)).

Definition setConfig (c : Config) : startup unit :=
  fun p => ({| config := c; searchConfigured := searchConfigured p;
               timeBuckets := timeBuckets p; events := events p |},
            Continue tt).

Definition setSearchConfigured (b : bool) : startup unit :=
  fun p => ({| config := config p; searchConfigured := b;
               timeBuckets := timeBuckets p; events := events p |},
            Continue tt).

Definition setTimeBuckets (l : list Z) : startup unit :=
  fun p => ({| config := config p; searchConfigured := searchConfigured p;
               timeBuckets := l; events := events p |},
            Continue tt).

Definition len (s : string) : Z := Z.of_nat (String.length s).

Definition withGraphite (c : Config) (g : GraphiteConfig) : Config :=
  {| Backends := Backends c; MaxProcs := MaxProcs c; Graphite := g;
     Listen := Listen c; Buckets := Buckets c; Timeouts := Timeouts c;
     KeepAliveInterval := KeepAliveInterval c; CarbonSearch := CarbonSearch c;
     MaxIdleConnsPerHost := MaxIdleConnsPerHost c;
     ConcurrencyLimitPerServer := ConcurrencyLimitPerServer c;
     ExpireDelaySec := ExpireDelaySec c; Logger := Logger c;
     GraphiteWeb09Compatibility := GraphiteWeb09Compatibility c |}.

Section Main.

Variable intSize : Z.
Variable env : StartupEnv.

(** Lines 698-710: the Graphite settings fall back to the environment
    and to the defaults. *)
Definition graphiteDefaults (g : GraphiteConfig) : GraphiteConfig :=
  let host :=
    if bool_decide (Host g = "") then
      let h := getenv env "GRAPHITEHOST" ++ ":" ++ getenv env "GRAPHITEPORT" in
      if bool_decide (h = ":") then Host g else h
    else Host g in
  {| Pattern := if bool_decide (Pattern g = "") then "{prefix}.{fqdn}"
                else Pattern g;
     Host := host;
     Interval := Interval g;
     GraphitePrefix := if bool_decide (GraphitePrefix g = "") then "carbon.zipper"
                       else GraphitePrefix g |}.

(** [main] is written in three parts.  [mainServe] is its last part, from
    [runtime.GOMAXPROCS] to [gracehttp.Serve]: the histogram, the published
    variables, the engine, the handlers, Graphite, the pidfile, the server.
    The names under which the counters are registered with Graphite are
    left out, the bounds of the histogram buckets are kept. *)
Definition mainServe (c : Config) : startup unit :=
  emit (EvGOMAXPROCS (MaxProcs c)) ;;
  (* timeBuckets = make([]int64, config.Buckets+1); a negative length
     panics, and the deferred recover turns the panic into Fatal *)
  (let n := GoInt.wrap intSize (Buckets c + 1) in
   if n <? 0 then fatal "Recovered from unhandled panic"
   else setTimeBuckets (replicate (Z.to_nat n) 0)) ;;
  emit (EvPublish "httptrack") ;;
  emit (EvPublish "requestBuckets") ;;
  emit (EvPublish "goroutines") ;;
  emit (EvPublish "config") ;;
  emit (EvNewPathCache (ExpireDelaySec c)) ;;
  emit (EvNewPathCache (ExpireDelaySec c)) ;;
  emit (EvPublish "cacheSize") ;;
  emit (EvPublish "cacheItems") ;;
  emit (EvPublish "searchCacheSize") ;;
  emit (EvPublish "searchCacheItems") ;;
  emit (EvNewZipper (Backends c) (CarbonSearch c)) ;;
  emit (EvHandleFunc "/metrics/find/") ;;
  emit (EvHandleFunc "/render/") ;;
  emit (EvHandleFunc "/info/") ;;
  emit (EvHandleFunc "/lb_check") ;;
  let g := graphiteDefaults (Graphite c) in
  setConfig (withGraphite c g) ;;
  when (negb (bool_decide (Host g = "")))
       (emit (EvGraphiteRegister (Host g)
                (map (fun i => (bucketLower intSize (Z.of_nat i),
                                bucketUpper intSize (Z.of_nat i)))
                     (seq 0 (Z.to_nat (Buckets c + 1)))))) ;;
  when (negb (bool_decide (flagPid env = "")))
       (emit (EvPidfileWrite (flagPid env)) ;;
        when (pidfileWriteErr env) (fatal "error during pidfile.Write():")) ;;
  emit (EvServe (Listen c)) ;;
  when (serveErr env) (fatal "error during gracehttp.Serve()").

(** The middle part: the checks [main] makes once the configuration file
    is parsed (the backend list, the logger configuration) and the
    assignment of [searchConfigured]. *)
Definition mainConfigured : startup unit :=
  c <- getConfig ;;
  when (bool_decide (length (Backends c) = 0%nat))
       (fatal "no Backends loaded -- exiting") ;;
  emit (EvApplyLogger (Logger c)) ;;
  when (applyLoggerErr env (Logger c)) (fatal "Failed to apply config") ;;
  setSearchConfigured
    ((len (zipper.Prefix (CarbonSearch c)) >? 0)
     && (len (zipper.Backend (CarbonSearch c)) >? 0)) ;;
  mainServe c.

(** The first part: the flags and the configuration file. *)
Definition main : startup unit :=
  when (defaultLoggerErr env)
       (fatal "Failed to initialize logger with default configuration") ;;
  when (bool_decide (flagConfig env = ""))
       (fatal "missing config file option") ;;
  match readFile env (flagConfig env) with
  | None => fatal "unable to load config file:"
  | Some cfg =>
      c0 <- getConfig ;;
      match yamlUnmarshal env cfg c0 with
      | None => fatal "failed to parse config"
      | Some c => setConfig c ;; mainConfigured
      end
  end.

End Main.

(* ===================================================================== *)
(** ** Vocabulary of the properties *)
(* ===================================================================== *)

(** The [Stats] an engine call returned alongside its result and error. *)
Definition statsOf {A} (r : A * zipper.Stats * option zipper.error) : zipper.Stats :=
  snd (fst r).

(** The [Stats] field that carries the same name as a counter, for the
    nine counters that have one. *)
Definition statsField (c : Metrics.Counter) : option (zipper.Stats -> Z) :=
  match c with
  | Metrics.Timeouts => Some zipper.Timeouts
  | Metrics.FindErrors => Some zipper.FindErrors
  | Metrics.RenderErrors => Some zipper.RenderErrors
  | Metrics.InfoErrors => Some zipper.InfoErrors
  | Metrics.SearchRequests => Some zipper.SearchRequests
  | Metrics.SearchCacheHits => Some zipper.SearchCacheHits
  | Metrics.SearchCacheMisses => Some zipper.SearchCacheMisses
  | Metrics.CacheMisses => Some zipper.CacheMisses
  | Metrics.CacheHits => Some zipper.CacheHits
  | _ => None
  end.

(** The absent-flag array of a series covers all of its value positions. *)
Definition covers (metric : pb3.FetchResponse) : Prop :=
  (length (pb3.Values metric) <= length (pb3.IsAbsent metric))%nat.

(** The ["values"] entry of the map [m] built for [metric]: position by
    position the sentinel [missing] where the flag marks the point absent,
    and the value itself where it does not. *)
Definition valuesSerialized (missing : iface) (metric : pb3.FetchResponse)
    (m : gmap string iface) : Prop :=
  exists pvalues,
    m !! "values" = Some (ISlice pvalues) /\
    length pvalues = length (pb3.Values metric) /\
    forall (i : nat) (v : float),
      pb3.Values metric !! i = Some v ->
      (pb3.IsAbsent metric !! i = Some true /\ pvalues !! i = Some missing) \/
      (pb3.IsAbsent metric !! i = Some false /\ pvalues !! i = Some (IFloat64 v)).

(** The map the pickle arm of [encodeFindResponse] builds for a match when
    [graphite09compat] is off, with [stop] as the end of the interval. *)
Definition legacyMatch (stop : Z) (metric : pb3.GlobMatch) : gmap string iface :=
  {[ "is_leaf" := IBool (pb3.IsLeaf metric);
     "path" := IString (pb3.Path metric);
     "intervals" := IIntervalSet 0 stop ]}.

(** A small logic for the steps of [main]: a step [keeps] a part of the
    process state, [extends] the list of events, [avoids] a fatal message. *)
Definition keeps {X A} (proj : Process -> X) (h : startup A) : Prop :=
  forall p, proj (fst (h p)) = proj p.

Definition extends {A} (h : startup A) : Prop :=
  forall p, exists rest, events (fst (h p)) = (events p ++ rest)%list.

Definition avoids {A} (msg : string) (h : startup A) : Prop :=
  forall p, snd (h p) <> Stop msg.

(** *** Vocabulary of the further properties *)

(** How one handler run is counted: [own] is the handler's request
    counter, [others] the request counters of the other handlers. *)
Definition counted (own : Metrics.Counter) (others : list Metrics.Counter)
    (w : World) (r : World * outcome Halt unit) : Prop :=
  let m := metrics w in
  let m' := metrics (fst r) in
  m' Metrics.Requests = GoInt.int64 (m Metrics.Requests + 1) /\
  m' own = GoInt.int64 (m own + 1) /\
  Forall (fun c => m' c = m c) others /\
  match snd r with
  | Continue _ =>
      m' Metrics.Responses = GoInt.int64 (m Metrics.Responses + 1) /\
      m' Metrics.Errors = m Metrics.Errors
  | Stop Return =>
      m' Metrics.Errors = GoInt.int64 (m Metrics.Errors + 1) /\
      m' Metrics.Responses = m Metrics.Responses
  | Stop Panic =>
      m' Metrics.Errors = m Metrics.Errors /\
      m' Metrics.Responses = m Metrics.Responses
  end.

(** A request is turned down with [msg]: status 400, the message as the
    only body, no engine call, counted as an error. *)
Definition rejected (msg : string) (m : Metrics.T) (r : World * outcome Halt unit)
  : Prop :=
  writer (fst r) = httpError msg StatusBadRequest newResponseWriter /\
  status (writer (fst r)) = Some 400 /\
  body (writer (fst r)) = [PText (msg ++ newline)] /\
  calls (fst r) = [] /\
  snd r = Stop Return /\
  metrics (fst r) Metrics.Errors = GoInt.int64 (m Metrics.Errors + 1).

(** The engine call a handler may make. *)
Definition callOf (h : zipper.Call -> Prop) (w : World) (r : World * outcome Halt unit)
  : Prop :=
  calls (fst r) = calls w \/ exists c, h c /\ calls (fst r) = (calls w ++ [c])%list.

(** A render request that passes every check of [renderHandler]. *)
Definition validRender (intSize : Z) (req : Request) (from until : Z) : Prop :=
  ParseFormErr req = None /\
  strconv.Atoi intSize (FormValue req "from") = Some from /\
  strconv.Atoi intSize (FormValue req "until") = Some until /\
  FormValue req "target" <> "".

(** An info request that passes every check of [infoHandler]. *)
Definition validInfo (req : Request) : Prop :=
  ParseFormErr req = None /\ FormValue req "target" <> "".

(** The run failed after the engine call: the reply is [code] with [msg]
    as its only body, and the request is counted as an error. *)
Definition failed (code : Z) (msg : string) (m : Metrics.T)
    (r : World * outcome Halt unit) : Prop :=
  status (writer (fst r)) = Some code /\
  body (writer (fst r)) = [PText (msg ++ newline)] /\
  snd r = Stop Return /\
  metrics (fst r) Metrics.Errors = GoInt.int64 (m Metrics.Errors + 1) /\
  metrics (fst r) Metrics.Responses = m Metrics.Responses.

(** Nothing was written: no header set, no status, no body; the request
    is counted as answered. *)
Definition silent (m : Metrics.T) (r : World * outcome Halt unit) : Prop :=
  writer (fst r) = newResponseWriter /\
  snd r = Continue tt /\
  metrics (fst r) Metrics.Responses = GoInt.int64 (m Metrics.Responses + 1) /\
  metrics (fst r) Metrics.Errors = m Metrics.Errors.

(** The last statements of the three handlers, after the response was
    handed to the encoder: count a response, or answer 500 and count an
    error when the encoder failed. *)
Definition finish (r : World * outcome Halt (option zipper.error))
  : World * outcome Halt unit :=
  match r with
  | (w, Continue None) =>
      (exec (onMetrics (Metrics.Add Metrics.Responses 1)) w, Continue tt)
  | (w, Continue (Some _)) =>
      (exec (onWriter (httpError "error marshaling data" StatusInternalServerError) ;;
             onMetrics (Metrics.Add Metrics.Errors 1)) w, Stop Return)
  | (w, Stop h) => (w, Stop h)
  end.

(** The statements of a handler up to and including [sendStats]. *)
Definition entered (own : Metrics.Counter) (c : zipper.Call) (st : zipper.Stats)
    (w : World) : World :=
  exec (onMetrics (Metrics.Add Metrics.Requests 1) ;;
        onMetrics (Metrics.Add own 1) ;;
        logCall c ;;
        sendStats st) w.

(** The reply to a failed engine call. *)
Definition engineFailed (msg : string) (w : World) : World * outcome Halt unit :=
  (exec (onWriter (httpError msg StatusInternalServerError) ;;
         onMetrics (Metrics.Add Metrics.Errors 1)) w, Stop Return).

(** The content type [findHandler] and [renderHandler] answer a format
    with, and the one [infoHandler] does. *)
Definition listingContentType (f : Format) : option string :=
  match f with
  | FProtobuf => Some contentTypeProtobuf
  | FJSON => Some contentTypeJSON
  | FPickle | FEmpty => Some contentTypePickle
  | FOther => None
  end.

Definition infoContentType (f : Format) : option string :=
  match f with
  | FProtobuf => Some contentTypeProtobuf
  | FJSON | FEmpty => Some contentTypeJSON
  | FPickle | FOther => None
  end.

(** The run answered: status 200, the content type [ct], one encoded
    payload as the body, counted as a response. *)
Definition answered (ct : string) (m : Metrics.T) (r : World * outcome Halt unit)
  : Prop :=
  status (writer (fst r)) = Some 200 /\
  header (writer (fst r)) !! "Content-Type" = Some ct /\
  (exists p, body (writer (fst r)) = [p]) /\
  snd r = Continue tt /\
  metrics (fst r) Metrics.Responses = GoInt.int64 (m Metrics.Responses + 1) /\
  metrics (fst r) Metrics.Errors = m Metrics.Errors.

(** The run panicked before anything was written. *)
Definition crashed (m : Metrics.T) (r : World * outcome Halt unit) : Prop :=
  snd r = Stop Panic /\
  writer (fst r) = newResponseWriter /\
  metrics (fst r) Metrics.Requests = GoInt.int64 (m Metrics.Requests + 1) /\
  metrics (fst r) Metrics.Responses = m Metrics.Responses /\
  metrics (fst r) Metrics.Errors = m Metrics.Errors.

(** The keys and the metadata of the map built for a series. *)
Definition describes (metric : pb3.FetchResponse) (m : gmap string iface) : Prop :=
  m !! "name" = Some (IString (pb3.Name metric)) /\
  m !! "start" = Some (IInt32 (pb3.StartTime metric)) /\
  m !! "step" = Some (IInt32 (pb3.StepTime metric)) /\
  m !! "end" = Some (IInt32 (pb3.StopTime metric)) /\
  dom m = ({[ "start"; "step"; "end"; "name"; "values" ]} : gset string).

(** The configuration file was read and parsed, and gave [c]. *)
Definition loaded (env : StartupEnv) (c : Config) : Prop :=
  defaultLoggerErr env = false /\
  flagConfig env <> "" /\
  exists cfg, readFile env (flagConfig env) = Some cfg /\
              yamlUnmarshal env cfg defaultConfig = Some c.

(** The process state when [main] enters its last part. *)
Definition configured (c : Config) : Process :=
  {| config := c;
     searchConfigured :=
       (len (zipper.Prefix (CarbonSearch c)) >? 0)
       && (len (zipper.Backend (CarbonSearch c)) >? 0);
     timeBuckets := [];
     events := [EvApplyLogger (Logger c)] |}.

(* ===================================================================== *)
(** ** Concrete inputs *)
(* ===================================================================== *)

Module Examples.

Definition noStats : zipper.Stats :=
  {| zipper.Timeouts := 0; zipper.FindErrors := 0; zipper.RenderErrors := 0;
     zipper.InfoErrors := 0; zipper.SearchRequests := 0;
     zipper.SearchCacheHits := 0; zipper.SearchCacheMisses := 0;
     zipper.CacheMisses := 0; zipper.CacheHits := 0 |}.

(** Two of three backends answered, one timed out. *)
Definition someStats : zipper.Stats :=
  {| zipper.Timeouts := 1; zipper.FindErrors := 0; zipper.RenderErrors := 2;
     zipper.InfoErrors := 0; zipper.SearchRequests := 3;
     zipper.SearchCacheHits := 4; zipper.SearchCacheMisses := 5;
     zipper.CacheMisses := 6; zipper.CacheHits := 7 |}.

Definition cpu : pb3.FetchResponse :=
  {| pb3.Name := "host.cpu"; pb3.StartTime := 1000; pb3.StopTime := 1180;
     pb3.StepTime := 60;
     pb3.Values := [1.5; 0; 2.5]%float;
     pb3.IsAbsent := [false; true; false] |}.

Definition infoA : pb3.InfoResponse :=
  {| pb3.InfoName := "host.cpu"; pb3.AggregationMethod := "average";
     pb3.MaxRetention := 86400; pb3.XFilesFactor := 0.5%float;
     pb3.Retentions := [{| pb3.SecondsPerPoint := 60; pb3.NumberOfPoints := 1440 |}] |}.

Definition infoB : pb3.InfoResponse :=
  {| pb3.InfoName := "host.cpu"; pb3.AggregationMethod := "sum";
     pb3.MaxRetention := 3600; pb3.XFilesFactor := 0%float;
     pb3.Retentions := [{| pb3.SecondsPerPoint := 10; pb3.NumberOfPoints := 360 |}] |}.

(** An engine over two backends that answers every call; render calls
    report an error for the target ["broken"]. *)
Definition engine : zipper.Zipper :=
  {| zipper.Find := fun _ =>
       ([{| pb3.Path := "host.cpu"; pb3.IsLeaf := true |}], someStats, None);
     zipper.Render := fun target _ _ =>
       if bool_decide (target = "broken")
       then ({| pb3.GetMetrics := [] |}, someStats, Some "no backend answered")
       else ({| pb3.GetMetrics := [cpu] |}, someStats, None);
     zipper.Info := fun _ =>
       ([("http://a:8080", infoA); ("http://b:8080", infoB)], noStats, None) |}.

Definition noMarshalErr : Payload -> option zipper.error := fun _ => None.

Definition request (form : list (string * string)) : Request :=
  {| Form := list_to_map (map (fun kv => (fst kv, [snd kv])) form);
     ParseFormErr := None |}.

Definition fileConfig (backends : list string) (search : zipper.CarbonSearch)
  : Config :=
  {| Backends := backends; MaxProcs := 1; Graphite := Graphite defaultConfig;
     Listen := ":8080"; Buckets := 10; Timeouts := Timeouts defaultConfig;
     KeepAliveInterval := KeepAliveInterval defaultConfig;
     CarbonSearch := search;
     MaxIdleConnsPerHost := 100; ConcurrencyLimitPerServer := 0;
     ExpireDelaySec := 600; Logger := [defaultLoggerConfig];
     GraphiteWeb09Compatibility := false |}.

(** An environment in which every step of [main] succeeds and the
    configuration file yields [c]. *)
Definition env (c : Config) : StartupEnv :=
  {| defaultLoggerErr := false;
     flagConfig := "/etc/carbonzipper.yaml";
     flagPid := "";
     readFile := fun _ => Some "backends: ...";
     yamlUnmarshal := fun _ _ => Some c;
     applyLoggerErr := fun _ => false;
     getenv := fun _ => "";
     pidfileWriteErr := false;
     serveErr := false |}.

End Examples.

Module MoreExamples.

(** An encoder that fails on every payload. *)
Definition brokenEncoder : Payload -> option zipper.error :=
  fun _ => Some "encoder failed".

(** A series with three values and two absent flags. *)
Definition shortFlags : pb3.FetchResponse :=
  {| pb3.Name := "host.cpu"; pb3.StartTime := 1000; pb3.StopTime := 1180;
     pb3.StepTime := 60;
     pb3.Values := [1.5; 0; 2.5]%float;
     pb3.IsAbsent := [false; true] |}.

Definition shortFlagsEngine : zipper.Zipper :=
  {| zipper.Find := zipper.Find Examples.engine;
     zipper.Render := fun _ _ _ =>
       ({| pb3.GetMetrics := [shortFlags] |}, Examples.noStats, None);
     zipper.Info := zipper.Info Examples.engine |}.

End MoreExamples.

(* ===================================================================== *)
(** * Properties *)
(* ===================================================================== *)

(** ** Machine integers *)

Lemma wrap_in_range bits z :
  0 < bits -> - 2 ^ (bits - 1) <= GoInt.wrap bits z < 2 ^ (bits - 1).
Proof.
  intros Hb. unfold GoInt.wrap.
  assert (H2 : 2 ^ bits = 2 * 2 ^ (bits - 1)).
  { rewrite <- Z.pow_succ_r by lia. f_equal. lia. }
  assert (Hp : 0 < 2 ^ (bits - 1)) by (apply Z.pow_pos_nonneg; lia).
  pose proof (Z.mod_pos_bound (z + 2 ^ (bits - 1)) (2 ^ bits)) as Hm.
  lia.
Qed.

Lemma wrap_small bits z :
  0 < bits -> - 2 ^ (bits - 1) <= z < 2 ^ (bits - 1) -> GoInt.wrap bits z = z.
Proof.
  intros Hb Hz. unfold GoInt.wrap.
  assert (H2 : 2 ^ bits = 2 * 2 ^ (bits - 1)).
  { rewrite <- Z.pow_succ_r by lia. f_equal. lia. }
  rewrite Z.mod_small by lia. lia.
Qed.

Lemma wrap_congruent bits z :
  0 < bits -> (GoInt.wrap bits z - z) mod 2 ^ bits = 0.
Proof.
  intros Hb. unfold GoInt.wrap.
  assert (Hp : 0 < 2 ^ bits) by (apply Z.pow_pos_nonneg; lia).
  pose proof (Z.div_mod (z + 2 ^ (bits - 1)) (2 ^ bits)) as Hd.
  replace ((z + 2 ^ (bits - 1)) mod 2 ^ bits - 2 ^ (bits - 1) - z)
    with (- ((z + 2 ^ (bits - 1)) / 2 ^ bits) * 2 ^ bits) by lia.
  apply Z.mod_mul. lia.
Qed.

Lemma inRange_spec bits z :
  GoInt.inRange bits z = true <-> - 2 ^ (bits - 1) <= z < 2 ^ (bits - 1).
Proof. unfold GoInt.inRange. rewrite andb_true_iff, Z.leb_le, Z.ltb_lt. tauto. Qed.

(** ** The request-time histogram *)

(** The threshold the loop compares [ms] with is the intended bucket
    bound [50 * 2^bucket] as long as that fits an [int64]. *)
Lemma threshold_exact bucket :
  0 <= bucket <= 57 -> GoInt.int64 (50 * GoInt.shl64 1 bucket) = 50 * 2 ^ bucket.
Proof.
  intros Hb. unfold GoInt.shl64, GoInt.int64.
  rewrite Z.shiftl_1_l.
  assert (Hlo : 0 < 2 ^ bucket) by (apply Z.pow_pos_nonneg; lia).
  assert (Hhi : 2 ^ bucket <= 2 ^ 57) by (apply Z.pow_le_mono_r; lia).
  change (2 ^ 57) with 144115188075855872 in Hhi.
  rewrite (wrap_small 64 (2 ^ bucket)) by (change (2 ^ (64 - 1)) with 9223372036854775808; lia).
  apply wrap_small; [lia|].
  change (2 ^ (64 - 1)) with 9223372036854775808. lia.
Qed.

(** A request of 50 ms or more leaves the loop in its first iteration,
    with [bucket = -1]. *)
Lemma bucketLoop_slow ms limit n :
  50 <= ms -> 0 < limit -> bucketLoop ms limit (S n) 0 = -1.
Proof.
  intros Hms Hl. cbn [bucketLoop].
  destruct (Z.ltb_spec 0 limit); [|lia].
  rewrite (threshold_exact 0) by lia.
  destruct (Z.geb_spec ms (50 * 2 ^ 0)); [reflexivity|].
  change (2 ^ 0) with 1 in *. lia.
Qed.

(** A request under 50 ms never leaves the loop early: the loop runs to
    [bucket = limit]. *)
Lemma bucketLoop_fast ms limit n bucket :
  ms < 50 -> 0 <= bucket -> limit <= 58 -> limit - bucket = Z.of_nat n ->
  bucketLoop ms limit n bucket = limit.
Proof.
  intros Hms. revert bucket.
  induction n as [|n IH]; intros bucket Hb Hl Hn; cbn [bucketLoop]; [lia|].
  destruct (Z.ltb_spec bucket limit); [|lia].
  rewrite threshold_exact by lia.
  assert (Hp : 1 <= 2 ^ bucket).
  { pose proof (Z.pow_pos_nonneg 2 bucket). lia. }
  destruct (Z.geb_spec ms (50 * 2 ^ bucket)); [lia|].
  apply IH; lia.
Qed.

Lemma addBucket_negative tb i : i < 0 -> addBucket tb i = None.
Proof.
  intros Hi. unfold addBucket.
  destruct (Z.leb_spec 0 i); [lia | reflexivity].
Qed.

Lemma addBucket_in_range tb i x :
  0 <= i -> tb !! Z.to_nat i = Some x ->
  addBucket tb i = Some (<[Z.to_nat i := GoInt.int64 (x + 1)]> tb).
Proof.
  intros Hi Hx. unfold addBucket.
  pose proof (lookup_lt_Some _ _ _ Hx) as Hlt.
  destruct (Z.leb_spec 0 i); [|lia].
  destruct (Z.ltb_spec i (Z.of_nat (length tb))); [|lia].
  cbn. rewrite Hx. reflexivity.
Qed.

(** Every request of 50 ms or more makes [bucketRequestTimes] index
    [timeBuckets[-1]]: it panics, and no bucket is incremented. *)
Lemma bucketRequestTimes_slow_panics intSize B tb t :
  0 <= B -> B + 1 < 2 ^ (intSize - 1) -> 1 < intSize ->
  50 <= GoInt.div64 t 1000000 ->
  bucketRequestTimes intSize B tb t = None.
Proof.
  intros HB Hfit Hsz Hms. unfold bucketRequestTimes.
  assert (Hp : 0 < 2 ^ (intSize - 1)) by (apply Z.pow_pos_nonneg; lia).
  rewrite (wrap_small intSize (B + 1)) by lia.
  replace (Z.to_nat (B + 1)) with (S (Z.to_nat B)) by lia.
  rewrite bucketLoop_slow by lia.
  destruct (Z.ltb_spec (-1) B); [|lia].
  rewrite addBucket_negative by lia. reflexivity.
Qed.

(** Every request under 50 ms is counted in the overflow bucket and logged
    as slow (for up to 57 configured buckets). *)
Lemma bucketRequestTimes_fast_overflow intSize B tb t x :
  0 <= B <= 57 -> B + 1 < 2 ^ (intSize - 1) -> 1 < intSize ->
  GoInt.div64 t 1000000 < 50 ->
  tb !! Z.to_nat B = Some x ->
  bucketRequestTimes intSize B tb t
  = Some (<[Z.to_nat B := GoInt.int64 (x + 1)]> tb, true).
Proof.
  intros HB Hfit Hsz Hms Hx. unfold bucketRequestTimes.
  assert (Hp : 0 < 2 ^ (intSize - 1)) by (apply Z.pow_pos_nonneg; lia).
  rewrite (wrap_small intSize (B + 1)) by lia.
  rewrite (bucketLoop_fast _ (B + 1)) by lia.
  destruct (Z.ltb_spec (B + 1) B); [lia|].
  rewrite (addBucket_in_range tb B x) by (lia || assumption).
  reflexivity.
Qed.

(** C8 (the code departs from the claim).  With the default ten buckets a
    request that took 60 ms belongs to bucket 1 (50 to 100 ms); the code
    indexes [timeBuckets[-1]] and panics, so no element is incremented.
    A request that took 10 ms belongs to bucket 0; the code increments the
    overflow element [timeBuckets[10]] and logs it as slow. *)
Theorem bucketRequestTimes_misplaces_requests :
  bucketLower 64 1 = 50 /\ bucketUpper 64 1 = 100 /\
  bucketRequestTimes 64 10 (replicate 11 0) (60 * 1000000) = None /\
  bucketLower 64 0 = 0 /\ bucketUpper 64 0 = 50 /\
  bucketRequestTimes 64 10 (replicate 11 0) (10 * 1000000)
  = Some ([0; 0; 0; 0; 0; 0; 0; 0; 0; 0; 1], true).
Proof. repeat split; vm_compute; reflexivity. Qed.

(** ** Render responses *)

Lemma pvaluesFrom_covered missing isAbsent values : forall i : nat,
  (i + length values <= length isAbsent)%nat ->
  exists pvalues,
    pvaluesFrom missing isAbsent i values = Some pvalues /\
    length pvalues = length values /\
    forall (k : nat) (v : float),
      values !! k = Some v ->
      (isAbsent !! (i + k)%nat = Some true /\ pvalues !! k = Some missing) \/
      (isAbsent !! (i + k)%nat = Some false /\ pvalues !! k = Some (IFloat64 v)).
Proof.
  induction values as [|v0 values IH]; intros i Hlen; cbn [pvaluesFrom].
  - exists []. split; [reflexivity|]. split; [reflexivity|].
    intros k v Hk. rewrite lookup_nil in Hk. discriminate.
  - cbn [length] in Hlen.
    destruct (lookup_lt_is_Some_2 isAbsent i) as [a Ha]; [lia|].
    rewrite Ha.
    destruct (IH (S i)) as (pv & Hpv & Hl & Hpos); [lia|].
    rewrite Hpv. eexists. split; [reflexivity|].
    split; [cbn; lia|].
    intros [|k] v Hk; cbn in Hk.
    + injection Hk as <-. rewrite Nat.add_0_r, Ha. cbn.
      destruct a; [left | right]; split; reflexivity.
    + replace (i + S k)%nat with (S i + k)%nat by lia.
      cbn [lookup]. apply (Hpos k v Hk).
Qed.

(** Without coverage the loop indexes [IsAbsent] out of range. *)
Lemma pvaluesFrom_uncovered missing isAbsent values : forall i : nat,
  (length isAbsent < i + length values)%nat -> (0 < length values)%nat ->
  pvaluesFrom missing isAbsent i values = None.
Proof.
  induction values as [|v0 values IH]; intros i Hlen Hne; cbn [pvaluesFrom].
  - cbn in Hne. lia.
  - destruct (isAbsent !! i) as [a|] eqn:Ha; [|reflexivity].
    apply lookup_lt_Some in Ha. cbn [length] in Hlen.
    rewrite (IH (S i)); [reflexivity | lia |].
    destruct values; cbn in *; lia.
Qed.

Lemma renderEntry_covered missing metric :
  covers metric ->
  exists m, renderEntry missing metric = Some m /\ valuesSerialized missing metric m.
Proof.
  intros Hc. unfold renderEntry.
  destruct (pvaluesFrom_covered missing (pb3.IsAbsent metric) (pb3.Values metric) 0%nat)
    as (pv & Hpv & Hl & Hpos); [exact Hc|].
  rewrite Hpv. eexists. split; [reflexivity|].
  exists pv. split; [reflexivity|]. split; [exact Hl|]. exact Hpos.
Qed.

Lemma renderEntries_covered missing l :
  Forall covers l ->
  exists response,
    renderEntries missing l = Some response /\
    Forall2 (valuesSerialized missing) l response.
Proof.
  induction 1 as [|metric l Hc _ IH]; cbn [renderEntries].
  - exists []. split; [reflexivity | constructor].
  - destruct (renderEntry_covered missing metric Hc) as (m & Hm & Hs).
    destruct IH as (response & Hr & Hall).
    rewrite Hm, Hr. eexists. split; [reflexivity|].
    constructor; assumption.
Qed.

(** [createRenderResponse] returns exactly when every series is covered. *)
Lemma createRenderResponse_returns_iff metrics missing :
  is_Some (createRenderResponse metrics missing)
  <-> Forall covers (pb3.GetMetrics metrics).
Proof.
  unfold createRenderResponse. split.
  - induction (pb3.GetMetrics metrics) as [|metric l IH]; cbn [renderEntries];
      intros Hs; [constructor|].
    unfold renderEntry in Hs.
    destruct (le_lt_dec (length (pb3.Values metric)) (length (pb3.IsAbsent metric)))
      as [Hc|Hc].
    + constructor; [exact Hc|]. apply IH.
      destruct (pvaluesFrom _ _ _ _); [|destruct Hs; discriminate].
      destruct (renderEntries missing l); [eauto|destruct Hs; discriminate].
    + rewrite pvaluesFrom_uncovered in Hs by (cbn; lia).
      destruct Hs; discriminate.
  - intros Hc. destruct (renderEntries_covered missing _ Hc) as (r & Hr & _).
    rewrite Hr. eauto.
Qed.

Lemma sentinel_not_numeric (x : float) : INil <> IFloat64 x /\ IPickleNone <> IFloat64 x.
Proof. split; discriminate. Qed.

(** C3.  When every series of a render result has an absent flag for each
    of its values, [createRenderResponse] returns, and the JSON and pickle
    arms of [renderHandler] hand the encoder one map per series whose
    ["values"] sequence holds, at each position, the sentinel (JSON: nil,
    encoded as null; pickle: [pickle.None]) exactly where the flag marks the
    position absent and the series' value elsewhere.  The sentinel is no
    number, so an absent point is never written as zero. *)
Theorem render_absent_points_sentinel marshalErr format metrics w :
  Forall covers (pb3.GetMetrics metrics) ->
  (classify format = FJSON ->
   exists response,
     createRenderResponse metrics INil = Some response /\
     Forall2 (valuesSerialized INil) (pb3.GetMetrics metrics) response /\
     (forall x, INil <> IFloat64 x) /\
     (marshalErr (PJSONMaps response) = None ->
      body (writer (exec (encodeRenderResponse marshalErr format metrics) w))
      = (body (writer w) ++ [PJSONMaps response])%list))
  /\
  (classify format = FPickle \/ classify format = FEmpty ->
   exists response,
     createRenderResponse metrics IPickleNone = Some response /\
     Forall2 (valuesSerialized IPickleNone) (pb3.GetMetrics metrics) response /\
     (forall x, IPickleNone <> IFloat64 x) /\
     (marshalErr (PPickleMaps response) = None ->
      body (writer (exec (encodeRenderResponse marshalErr format metrics) w))
      = (body (writer w) ++ [PPickleMaps response])%list)).
Proof.
  intros Hc. split.
  - intros Hf.
    destruct (renderEntries_covered INil _ Hc) as (response & Hr & Hall).
    exists response. repeat split; [exact Hr | exact Hall | discriminate |].
    intros Hme.
    unfold encodeRenderResponse, createRenderResponse, encode, exec.
    rewrite Hf, Hr, Hme. reflexivity.
  - intros Hf.
    destruct (renderEntries_covered IPickleNone _ Hc) as (response & Hr & Hall).
    exists response. repeat split; [exact Hr | exact Hall | discriminate |].
    intros Hme.
    unfold encodeRenderResponse, createRenderResponse, encode, exec.
    destruct Hf as [Hf|Hf]; rewrite Hf, Hr, Hme; reflexivity.
Qed.

Lemma render_absent_points_sentinel_witness :
  let metrics := {| pb3.GetMetrics := [Examples.cpu] |} in
  Forall covers (pb3.GetMetrics metrics) /\
  exists response,
    createRenderResponse metrics INil = Some response /\
    Forall2 (valuesSerialized INil) (pb3.GetMetrics metrics) response /\
    body (writer (exec (encodeRenderResponse Examples.noMarshalErr "json" metrics)
                       (newWorld Metrics.zero)))
    = [PJSONMaps response].
Proof.
  intros metrics.
  assert (Hc : Forall covers (pb3.GetMetrics metrics)).
  { repeat constructor. }
  split; [exact Hc|].
  destruct (render_absent_points_sentinel Examples.noMarshalErr "json" metrics
              (newWorld Metrics.zero) Hc) as [Hjson _].
  destruct (Hjson eq_refl) as (response & Hr & Hall & _ & Hbody).
  exists response. split; [exact Hr|]. split; [exact Hall|].
  exact (Hbody eq_refl).
Defined.

(** ** Info responses *)

Lemma infoLoop_responses perIteration infos : forall cell st responses,
  exists entries,
    snd (infoLoop perIteration infos cell st responses) = (responses ++ entries)%list /\
    map pb3.Server entries = map fst infos.
Proof.
  induction infos as [|[s i] infos IH]; intros cell st responses; cbn [infoLoop].
  - exists []. split; [symmetry; apply app_nil_r | reflexivity].
  - destruct (IH (if perIteration then S cell else cell) (<[cell := i]> st)
                 (responses ++ [{| pb3.Server := s; pb3.Info := Some cell |}])%list)
      as (entries & He & Hs).
    exists ({| pb3.Server := s; pb3.Info := Some cell |} :: entries).
    split; [rewrite He, <- app_assoc; reflexivity | cbn; rewrite Hs; reflexivity].
Qed.

(** The protobuf arm of [infoHandler] starts from [len(infos)] zero-valued
    entries and appends one entry per backend: twice as many entries as
    backends, the first half of them empty. *)
Lemma buildInfoResponse_doubles perIteration infos :
  exists entries,
    marshalView (buildInfoResponse perIteration infos)
    = (replicate (length infos) ("", None) ++ entries)%list /\
    map fst entries = map fst infos.
Proof.
  unfold buildInfoResponse, marshalView.
  destruct (infoLoop_responses perIteration infos 0%nat ∅
              (replicate (length infos) pb3.zeroServerInfoResponse))
    as (entries & He & Hs).
  destruct (infoLoop _ _ _ _ _) as [st rs]. cbn in *. subst rs.
  exists (map (deref st) entries). split.
  - rewrite map_app. f_equal.
    induction (length infos) as [|n IHn]; cbn; [reflexivity | f_equal; exact IHn].
  - rewrite map_map. cbn. exact Hs.
Qed.

Lemma buildInfoResponse_length perIteration infos :
  length (marshalView (buildInfoResponse perIteration infos))
  = (2 * length infos)%nat.
Proof.
  destruct (buildInfoResponse_doubles perIteration infos) as (entries & -> & Hs).
  apply (f_equal length) in Hs. rewrite !length_map in Hs.
  rewrite length_app, length_replicate. lia.
Qed.

(** With one loop variable for the whole loop, every [r.Info] holds the
    same address, and at [Marshal] time that cell holds the metadata of the
    backend visited last. *)
Lemma infoLoop_shared_variable infos : forall cell st responses,
  infoLoop false infos cell st responses
  = (foldl (fun st' si => <[cell := snd si]> st') st infos,
     (responses
      ++ map (fun si => {| pb3.Server := fst si; pb3.Info := Some cell |}) infos)%list).
Proof.
  induction infos as [|[s i] infos IH]; intros cell st responses; cbn [infoLoop].
  - cbn. rewrite app_nil_r. reflexivity.
  - rewrite IH. cbn. rewrite <- app_assoc. reflexivity.
Qed.

Lemma buildInfoResponse_shared_variable infos s i :
  marshalView (buildInfoResponse false (infos ++ [(s, i)]))
  = (replicate (S (length infos)) ("", None)
     ++ map (fun si => (fst si, Some i)) (infos ++ [(s, i)]))%list.
Proof.
  unfold buildInfoResponse, marshalView.
  rewrite infoLoop_shared_variable. cbn [fst snd pb3.Responses].
  rewrite length_app, Nat.add_1_r, map_app. f_equal.
  - generalize (S (length infos)). intros n.
    induction n as [|n IHn]; cbn; [reflexivity | f_equal; exact IHn].
  - rewrite map_map. apply map_ext. intros [s' i']. unfold deref. cbn.
    rewrite foldl_app. cbn. rewrite lookup_insert_eq. reflexivity.
Qed.

(** C9 (the code departs from the claim).  The engine reports two backends;
    the protobuf response has four entries.  The first two are zero-valued
    (no server, no metadata).  With one loop variable per loop both real
    entries carry the metadata of the backend visited last; with one per
    iteration each carries its own, and the two empty entries remain. *)
Theorem infoHandler_protobuf_entries :
  let req := Examples.request [("target", "host.cpu"); ("format", "protobuf")] in
  zipper.Info Examples.engine "host.cpu"
  = ([("http://a:8080", Examples.infoA); ("http://b:8080", Examples.infoB)],
     Examples.noStats, None) /\
  body (writer (exec (infoHandler Examples.engine Examples.noMarshalErr false req)
                     (newWorld Metrics.zero)))
  = [PProtoInfo [("", None); ("", None);
                 ("http://a:8080", Some Examples.infoB);
                 ("http://b:8080", Some Examples.infoB)]] /\
  body (writer (exec (infoHandler Examples.engine Examples.noMarshalErr true req)
                     (newWorld Metrics.zero)))
  = [PProtoInfo [("", None); ("", None);
                 ("http://a:8080", Some Examples.infoA);
                 ("http://b:8080", Some Examples.infoB)]].
Proof. repeat split; vm_compute; reflexivity. Qed.

(** ** The handlers *)

(** Unfold a handler run down to the case distinctions it makes. *)
Ltac unfold_handlers :=
  cbv [findHandler renderHandler infoHandler badRequest
       encodeFindResponse encodeRenderResponse encodeInfoResponse
       encode marshalAndWrite zipperFind zipperRender zipperInfo exec
       sendStats when hreturn hpanic hstop hbind hret
       onWriter onMetrics logCall isErr
       metrics writer calls fst].

Ltac handler_cases := repeat (case_match; simplify_eq/=).

Lemma app_singleton_neq {A} (l : list A) (x : A) : l <> (l ++ [x])%list.
Proof.
  intros H. apply (f_equal length) in H. rewrite length_app in H. cbn in H. lia.
Qed.

Lemma sendStats_metrics stats w c :
  metrics (exec (sendStats stats) w) c =
    match statsField c with
    | Some f => GoInt.int64 (metrics w c + f stats)
    | None => metrics w c
    end.
Proof. destruct c; reflexivity. Qed.

(** [findHandler] hands every query to the engine, the empty one too. *)
Lemma findHandler_invokes_engine cfg z me now req w :
  calls (exec (findHandler cfg z me now req) w)
  = (calls w ++ [zipper.CallFind (FormValue req "query")])%list.
Proof.
  unfold_handlers. cbn.
  destruct (zipper.Find z (FormValue req "query")) as [[ms st] err].
  handler_cases; reflexivity.
Qed.

(** [renderHandler] and [infoHandler] answer an empty target with 400 and
    leave the engine alone. *)
Lemma renderHandler_empty_target intSize z me req m :
  FormValue req "target" = "" ->
  let w := exec (renderHandler intSize z me req) (newWorld m) in
  status (writer w) = Some StatusBadRequest /\ calls w = [].
Proof.
  intros Ht. unfold_handlers. rewrite Ht. cbn.
  handler_cases; split; reflexivity.
Qed.

Lemma infoHandler_empty_target z me lv req m :
  FormValue req "target" = "" ->
  let w := exec (infoHandler z me lv req) (newWorld m) in
  status (writer w) = Some StatusBadRequest /\ calls w = [].
Proof.
  intros Ht. unfold_handlers. rewrite Ht. cbn.
  handler_cases; split; reflexivity.
Qed.

Lemma findHandler_never_rejects cfg z me now req m :
  status (writer (exec (findHandler cfg z me now req) (newWorld m)))
  <> Some StatusBadRequest.
Proof.
  unfold_handlers. cbn.
  destruct (zipper.Find z (FormValue req "query")) as [[ms st] err].
  handler_cases; discriminate.
Qed.

(** C1 (the code departs from the claim).  A find request with an empty
    query is not rejected: [findHandler] has no check of the query, calls
    [zipper.Find] with the empty string and, the engine answering, replies
    200.  The render and info handlers reject the same requests
    ([renderHandler_empty_target], [infoHandler_empty_target]). *)
Theorem findHandler_empty_query_reaches_engine :
  let req := Examples.request [("query", ""); ("format", "json")] in
  let w := exec (findHandler defaultConfig Examples.engine Examples.noMarshalErr
                   1500000000 req) (newWorld Metrics.zero) in
  FormValue req "query" = "" /\
  calls w = [zipper.CallFind ""] /\
  status (writer w) = Some StatusOK.
Proof. repeat split; vm_compute; reflexivity. Qed.

(** C7, as stated, fails: both bounds parse, the target is empty, and the
    request is answered with 400 without [zipper.Render] being called. *)
Lemma renderHandler_parsed_bounds_not_passed :
  let req := Examples.request [("target", ""); ("from", "1"); ("until", "2")] in
  let w := exec (renderHandler 64 Examples.engine Examples.noMarshalErr req)
             (newWorld Metrics.zero) in
  strconv.Atoi 64 (FormValue req "from") = Some 1 /\
  strconv.Atoi 64 (FormValue req "until") = Some 2 /\
  calls w <> [zipper.CallRender (FormValue req "target") 1 2] /\
  calls w = [] /\
  status (writer w) = Some StatusBadRequest.
Proof. repeat split; try (vm_compute; reflexivity). vm_compute. discriminate. Qed.

(** C7 (amended).  [renderHandler] parses [from] and [until] as decimal
    integers.  When either fails to parse the request is answered with 400
    and the engine is not called.  When both parse, the request is still
    answered with 400, engine untouched, if the form failed to parse or the
    target is empty; otherwise [zipper.Render] is called once, with the
    target and both bounds converted to [int32]. *)
Theorem renderHandler_from_until intSize z me req m :
  let w := exec (renderHandler intSize z me req) (newWorld m) in
  match strconv.Atoi intSize (FormValue req "from"),
        strconv.Atoi intSize (FormValue req "until") with
  | Some from, Some until =>
      if isErr (ParseFormErr req) || bool_decide (FormValue req "target" = "")
      then status (writer w) = Some StatusBadRequest /\ calls w = []
      else calls w = [zipper.CallRender (FormValue req "target")
                        (GoInt.int32 from) (GoInt.int32 until)]
  | _, _ => status (writer w) = Some StatusBadRequest /\ calls w = []
  end.
Proof.
  unfold_handlers. cbn.
  destruct (ParseFormErr req) as [e|]; cbn.
  - handler_cases; split; reflexivity.
  - destruct (strconv.Atoi intSize (FormValue req "from")) as [from|]; cbn;
      [|split; reflexivity].
    destruct (strconv.Atoi intSize (FormValue req "until")) as [until|]; cbn;
      [|split; reflexivity].
    destruct (bool_decide (FormValue req "target" = "")); cbn;
      [split; reflexivity|].
    destruct (zipper.Render z _ _ _) as [[ms st] err].
    handler_cases; reflexivity.
Qed.

Lemma Atoi_in_range intSize s v :
  strconv.Atoi intSize s = Some v -> GoInt.inRange intSize v = true.
Proof.
  unfold strconv.Atoi. intros H.
  repeat case_match; try discriminate; injection H as <-; assumption.
Qed.

(** C10, as stated, fails: [from] is 2^32, which an [int] of 64 bits holds
    and an [int32] does not, and the request has no [until]; it is answered
    with 400 and nothing is passed to [zipper.Render]. *)
Lemma renderHandler_wide_from_rejected :
  let req := Examples.request [("target", "host.cpu"); ("from", "4294967296")] in
  let w := exec (renderHandler 64 Examples.engine Examples.noMarshalErr req)
             (newWorld Metrics.zero) in
  strconv.Atoi 64 (FormValue req "from") = Some 4294967296 /\
  GoInt.inRange 64 4294967296 = true /\
  GoInt.inRange 32 4294967296 = false /\
  status (writer w) = Some StatusBadRequest /\
  calls w = [].
Proof. repeat split; vm_compute; reflexivity. Qed.

(** C10 (amended).  A render request whose form parses, whose target is
    not empty and whose [from] and [until] both parse as decimal integers
    of the platform's [int] is not answered with 400, whatever the size of
    the two values: [zipper.Render] is called with each reduced modulo 2^32
    into the [int32] range, so a value outside that range is passed on
    changed. *)
Theorem renderHandler_truncates_to_int32 intSize z me req m from until :
  ParseFormErr req = None ->
  FormValue req "target" <> "" ->
  strconv.Atoi intSize (FormValue req "from") = Some from ->
  strconv.Atoi intSize (FormValue req "until") = Some until ->
  let w := exec (renderHandler intSize z me req) (newWorld m) in
  calls w = [zipper.CallRender (FormValue req "target")
               (GoInt.wrap 32 from) (GoInt.wrap 32 until)] /\
  status (writer w) <> Some StatusBadRequest /\
  (GoInt.wrap 32 from - from) mod 2 ^ 32 = 0 /\
  (GoInt.wrap 32 until - until) mod 2 ^ 32 = 0 /\
  GoInt.inRange 32 (GoInt.wrap 32 from) = true /\
  GoInt.inRange 32 (GoInt.wrap 32 until) = true /\
  (GoInt.inRange 32 from = false -> GoInt.wrap 32 from <> from) /\
  (GoInt.inRange 32 until = false -> GoInt.wrap 32 until <> until).
Proof.
  intros Hp Ht Hf Hu.
  assert (Hrun :
    let w := exec (renderHandler intSize z me req) (newWorld m) in
    calls w = [zipper.CallRender (FormValue req "target")
               (GoInt.wrap 32 from) (GoInt.wrap 32 until)] /\
    status (writer w) <> Some StatusBadRequest).
  { unfold_handlers. rewrite Hp, Hf, Hu. cbn.
    rewrite bool_decide_eq_false_2 by exact Ht. cbn.
    destruct (zipper.Render z _ _ _) as [[ms st] err].
    handler_cases; split; (reflexivity || discriminate). }
  destruct Hrun as [Hc Hs].
  assert (Hin : forall v, GoInt.inRange 32 (GoInt.wrap 32 v) = true).
  { intros v. apply inRange_spec. apply wrap_in_range. lia. }
  assert (Hne : forall v, GoInt.inRange 32 v = false -> GoInt.wrap 32 v <> v).
  { intros v Hv Heq. rewrite <- Heq, Hin in Hv. discriminate. }
  cbv zeta. repeat split; auto using wrap_congruent with lia.
  all: apply wrap_congruent; lia.
Qed.

Lemma renderHandler_truncates_to_int32_witness :
  let req := Examples.request
               [("target", "host.cpu"); ("from", "4294967297");
                ("until", "-2147483649")] in
  let w := exec (renderHandler 64 Examples.engine Examples.noMarshalErr req)
             (newWorld Metrics.zero) in
  calls w = [zipper.CallRender "host.cpu" 1 2147483647] /\
  status (writer w) <> Some StatusBadRequest.
Proof.
  intros req w.
  assert (Hp : ParseFormErr req = None) by reflexivity.
  assert (Ht : FormValue req "target" <> "") by (vm_compute; discriminate).
  assert (Hf : strconv.Atoi 64 (FormValue req "from") = Some 4294967297)
    by (vm_compute; reflexivity).
  assert (Hu : strconv.Atoi 64 (FormValue req "until") = Some (-2147483649))
    by (vm_compute; reflexivity).
  destruct (renderHandler_truncates_to_int32 64 Examples.engine
              Examples.noMarshalErr req Metrics.zero _ _ Hp Ht Hf Hu)
    as (Hc & Hs & _).
  split; [exact Hc | exact Hs].
Defined.

(** ** Statistics *)

(** A handler run that makes no engine call leaves the nine counters
    alone. *)
Lemma renderHandler_no_call_no_stats intSize z me req w c f :
  statsField c = Some f ->
  calls (exec (renderHandler intSize z me req) w) = calls w ->
  metrics (exec (renderHandler intSize z me req) w) c = metrics w c.
Proof.
  intros Hc. unfold_handlers. cbn.
  handler_cases; intros Hcalls;
    try (exfalso; exact (app_singleton_neq _ _ (eq_sym Hcalls)));
    destruct c; simplify_eq/=; reflexivity.
Qed.

(** C4.  In every handler run that calls the engine, each field of the
    [Stats] the call returned is added (as an [int64]) once to the counter
    of the same name, whether the call returned an error or not: the value
    of that counter after the run is its value before plus the field.  For
    [findHandler] every run makes the call; for [renderHandler] and
    [infoHandler] the runs that make it are those whose call log grows. *)
Theorem stats_folded_once intSize cfg z me now lv req w c f :
  statsField c = Some f ->
  metrics (exec (findHandler cfg z me now req) w) c
  = GoInt.int64 (metrics w c
                 + f (statsOf (zipper.Find z (FormValue req "query"))))
  /\
  (forall target from until,
     calls (exec (renderHandler intSize z me req) w)
     = (calls w ++ [zipper.CallRender target from until])%list ->
     metrics (exec (renderHandler intSize z me req) w) c
     = GoInt.int64 (metrics w c
                    + f (statsOf (zipper.Render z target from until))))
  /\
  (forall target,
     calls (exec (infoHandler z me lv req) w)
     = (calls w ++ [zipper.CallInfo target])%list ->
     metrics (exec (infoHandler z me lv req) w) c
     = GoInt.int64 (metrics w c + f (statsOf (zipper.Info z target)))).
Proof.
  intros Hc. split; [|split].
  - unfold_handlers. unfold statsOf. cbn.
    destruct (zipper.Find z (FormValue req "query")) as [[ms st] err].
    handler_cases; destruct c; simplify_eq/=; reflexivity.
  - intros target from until. unfold_handlers. unfold statsOf. cbn.
    handler_cases; intros Hcalls;
      try (exfalso; exact (app_singleton_neq _ _ Hcalls));
      apply app_inv_head in Hcalls; simplify_eq/=;
      match goal with H : zipper.Render _ _ _ _ = _ |- _ => rewrite H end;
      destruct c; simplify_eq/=; reflexivity.
  - intros target. unfold_handlers. unfold statsOf. cbn.
    handler_cases; intros Hcalls;
      try (exfalso; exact (app_singleton_neq _ _ Hcalls));
      apply app_inv_head in Hcalls; simplify_eq/=;
      match goal with H : zipper.Info _ _ = _ |- _ => rewrite H end;
      destruct c; simplify_eq/=; reflexivity.
Qed.

Lemma stats_folded_once_witness :
  let req := Examples.request
               [("query", "host.*"); ("target", "broken");
                ("from", "0"); ("until", "60")] in
  let w := newWorld Metrics.zero in
  snd (zipper.Render Examples.engine "broken" 0 60) = Some "no backend answered" /\
  metrics (exec (renderHandler 64 Examples.engine Examples.noMarshalErr req) w)
          Metrics.Timeouts = 1 /\
  snd (zipper.Find Examples.engine "host.*") = None /\
  metrics (exec (findHandler defaultConfig Examples.engine Examples.noMarshalErr
                   1500000000 req) w)
          Metrics.Timeouts = 1.
Proof.
  intros req w.
  destruct (stats_folded_once 64 defaultConfig Examples.engine
              Examples.noMarshalErr 1500000000 false req w
              Metrics.Timeouts zipper.Timeouts eq_refl)
    as (Hfind & Hrender & _).
  split; [reflexivity|].
  split; [exact (Hrender "broken" 0 60 ltac:(vm_compute; reflexivity))|].
  split; [reflexivity | exact Hfind].
Defined.

(** ** Find responses *)

(** C2, as stated, fails on the end of the interval: encoded at Unix time
    1500000000, the interval of a match ends at 1500000060, not at the
    time of encoding. *)
Lemma find_pickle_interval_ends_after_now :
  let now := 1500000000 in
  let w := exec (encodeFindResponse defaultConfig Examples.noMarshalErr now
                   "pickle" "host.*"
                   [{| pb3.Path := "host.cpu"; pb3.IsLeaf := true |}])
             (newWorld Metrics.zero) in
  exists m,
    body (writer w) = [PPickleMaps [m]] /\
    m !! "intervals" = Some (IIntervalSet 0 1500000060) /\
    m !! "intervals" <> Some (IIntervalSet 0 now).
Proof.
  eexists. split; [vm_compute; reflexivity|].
  split; [vm_compute; reflexivity | vm_compute; discriminate].
Qed.

(** C2 (amended).  What [encodeFindResponse] hands to the encoder.
    Protobuf: the query and the matches as they are, each a path and a leaf
    flag.  JSON: the matches as they are.  Pickle (also the default), with
    [graphite09compat] off: one map per match with the leaf flag, the path
    and an interval set that starts at 0 and ends 60 seconds after the
    time of encoding, converted to [int32]; the interval is the same for
    every match; with [graphite09compat] on the map has the path and the
    leaf flag only. *)
Theorem encodeFindResponse_payloads cfg me now format query metrics w :
  let w' := exec (encodeFindResponse cfg me now format query metrics) w in
  let stop := GoInt.int32 (GoInt.int64 (now + 60)) in
  (classify format = FProtobuf ->
   let p := PProtoGlob {| pb3.GlobName := query; pb3.Matches := metrics |} in
   me p = None -> body (writer w') = (body (writer w) ++ [p])%list)
  /\
  (classify format = FJSON ->
   me (PJSONGlob metrics) = None ->
   body (writer w') = (body (writer w) ++ [PJSONGlob metrics])%list)
  /\
  (classify format = FPickle \/ classify format = FEmpty ->
   GraphiteWeb09Compatibility cfg = false ->
   let p := PPickleMaps (map (legacyMatch stop) metrics) in
   me p = None -> body (writer w') = (body (writer w) ++ [p])%list)
  /\
  (classify format = FPickle \/ classify format = FEmpty ->
   GraphiteWeb09Compatibility cfg = true ->
   let p := PPickleMaps
              (map (fun metric : pb3.GlobMatch =>
                      ({[ "metric_path" := IString (pb3.Path metric);
                          "isLeaf" := IBool (pb3.IsLeaf metric) ]}
                       : gmap string iface)) metrics) in
   me p = None -> body (writer w') = (body (writer w) ++ [p])%list)
  /\
  (forall metric : pb3.GlobMatch,
     legacyMatch stop metric !! "intervals" = Some (IIntervalSet 0 stop) /\
     legacyMatch stop metric !! "path" = Some (IString (pb3.Path metric)) /\
     legacyMatch stop metric !! "is_leaf" = Some (IBool (pb3.IsLeaf metric)) /\
     dom (legacyMatch stop metric) = ({[ "intervals"; "path"; "is_leaf" ]} : gset string)).
Proof.
  cbv zeta. split; [|split; [|split; [|split; [|intros metric; repeat split]]]].
  - intros Hf Hme. unfold_handlers. rewrite Hf. cbn. rewrite Hme. reflexivity.
  - intros Hf Hme. unfold_handlers. rewrite Hf. cbn. rewrite Hme. reflexivity.
  - intros Hf Hcompat Hme. unfold_handlers.
    assert (Hmap : map (findEntry cfg (GoInt.int32 (GoInt.int64 (now + 60)))) metrics
                   = map (legacyMatch (GoInt.int32 (GoInt.int64 (now + 60)))) metrics).
    { apply map_ext. intros metric. unfold findEntry. rewrite Hcompat. reflexivity. }
    destruct Hf as [Hf|Hf]; rewrite Hf; cbn; rewrite Hmap, Hme; reflexivity.
  - intros Hf Hcompat Hme. unfold_handlers.
    assert (Hmap : map (findEntry cfg (GoInt.int32 (GoInt.int64 (now + 60)))) metrics
                   = map (fun metric : pb3.GlobMatch =>
                            ({[ "metric_path" := IString (pb3.Path metric);
                                "isLeaf" := IBool (pb3.IsLeaf metric) ]}
                             : gmap string iface)) metrics).
    { apply map_ext. intros metric. unfold findEntry. rewrite Hcompat. reflexivity. }
    destruct Hf as [Hf|Hf]; rewrite Hf; cbn; rewrite Hmap, Hme; reflexivity.
Qed.

Lemma encodeFindResponse_payloads_witness :
  let metrics := [{| pb3.Path := "host.cpu"; pb3.IsLeaf := true |};
                  {| pb3.Path := "host"; pb3.IsLeaf := false |}] in
  let w' := exec (encodeFindResponse defaultConfig Examples.noMarshalErr
                    1500000000 "" "host*" metrics) (newWorld Metrics.zero) in
  body (writer w') = [PPickleMaps (map (legacyMatch 1500000060) metrics)].
Proof.
  intros metrics w'.
  destruct (encodeFindResponse_payloads defaultConfig Examples.noMarshalErr
              1500000000 "" "host*" metrics (newWorld Metrics.zero))
    as (_ & _ & Hpickle & _).
  exact (Hpickle (or_intror eq_refl) eq_refl eq_refl).
Defined.

(** ** Startup *)

Lemma keeps_bind {X A B} (proj : Process -> X) (h : startup A) (k : A -> startup B) :
  keeps proj h -> (forall a, keeps proj (k a)) -> keeps proj (hbind h k).
Proof.
  intros Hh Hk p. unfold hbind. specialize (Hh p).
  destruct (h p) as [p' [a|e]]; cbn in *; [rewrite Hk|]; exact Hh.
Qed.

Lemma extends_bind {A B} (h : startup A) (k : A -> startup B) :
  extends h -> (forall a, extends (k a)) -> extends (hbind h k).
Proof.
  intros Hh Hk p. unfold hbind. destruct (Hh p) as [r1 H1].
  destruct (h p) as [p' [a|e]]; cbn in *; [|eauto].
  destruct (Hk a p') as [r2 H2]. exists (r1 ++ r2)%list.
  rewrite H2, H1, app_assoc. reflexivity.
Qed.

Lemma avoids_bind {A B} msg (h : startup A) (k : A -> startup B) :
  avoids msg h -> (forall a, avoids msg (k a)) -> avoids msg (hbind h k).
Proof.
  intros Hh Hk p. unfold hbind. specialize (Hh p).
  destruct (h p) as [p' [a|e]]; cbn in *; [apply Hk|].
  intros Heq. apply Hh. injection Heq as ->. reflexivity.
Qed.

Lemma keeps_when {X} (proj : Process -> X) b (h : startup unit) :
  keeps proj h -> keeps proj (when b h).
Proof. intros Hh. destruct b; [exact Hh | intros p; reflexivity]. Qed.

Lemma extends_when b (h : startup unit) : extends h -> extends (when b h).
Proof.
  intros Hh. destruct b; [exact Hh|].
  intros p. exists []. cbn. rewrite app_nil_r. reflexivity.
Qed.

Lemma avoids_when msg b (h : startup unit) : avoids msg h -> avoids msg (when b h).
Proof. intros Hh. destruct b; [exact Hh | intros p; discriminate]. Qed.

Lemma keeps_fatal {X A} (proj : Process -> X) msg : keeps proj (@fatal A msg).
Proof. intros p. reflexivity. Qed.

Lemma extends_fatal {A} msg : extends (@fatal A msg).
Proof. intros p. exists []. cbn. rewrite app_nil_r. reflexivity. Qed.

Lemma avoids_fatal {A} msg msg' : msg' <> msg -> avoids msg (@fatal A msg').
Proof. intros Hne p Heq. injection Heq as Heq. exact (Hne Heq). Qed.

Lemma extends_emit e : extends (emit e).
Proof. intros p. exists [e]. reflexivity. Qed.

Lemma extends_same {A} (h : startup A) : keeps events h -> extends h.
Proof. intros Hh p. exists []. rewrite Hh, app_nil_r. reflexivity. Qed.

Lemma avoids_continue {A} msg (h : startup A) :
  (forall p, exists a, snd (h p) = Continue a) -> avoids msg h.
Proof. intros Hh p Heq. destruct (Hh p) as [a Ha]. congruence. Qed.

(** The steps of [mainServe], one by one. *)
Ltac startup_steps :=
  repeat first
    [ apply keeps_bind; [|intros ?] | apply keeps_when | apply keeps_fatal
    | apply extends_bind; [|intros ?] | apply extends_when | apply extends_fatal
    | apply extends_emit
    | apply avoids_bind; [|intros ?] | apply avoids_when
    | apply avoids_fatal; discriminate
    | apply avoids_continue; intros ?; eexists; reflexivity
    | apply extends_same; intros ?; reflexivity
    | intros ?; reflexivity
    | match goal with |- context [if ?b then _ else _] => destruct b end ].

Lemma mainServe_keeps_searchConfigured intSize env c :
  keeps searchConfigured (mainServe intSize env c).
Proof. unfold mainServe. startup_steps. Qed.

Lemma mainServe_extends intSize env c : extends (mainServe intSize env c).
Proof. unfold mainServe. startup_steps. Qed.

Lemma mainServe_avoids intSize env c :
  avoids "no Backends loaded -- exiting" (mainServe intSize env c).
Proof. unfold mainServe. startup_steps. Qed.

#[local] Arguments mainServe : simpl never.

Ltac unfold_startup :=
  cbv [main mainConfigured when fatal emit getConfig setConfig
       setSearchConfigured hstop hbind hret initialProcess].

Lemma len_positive s : (len s >? 0) = true <-> s <> "".
Proof.
  unfold len. destruct s as [|a s]; cbn [String.length].
  - split; [discriminate | congruence].
  - split; [discriminate | intros _; apply Z.gtb_lt; lia].
Qed.

(** C5.  Once the configuration file has been read and parsed: with an
    empty backend list [main] ends in [Fatal "no Backends loaded"] having
    taken no further step (no engine is constructed, no handler is
    registered, no server is started); with a non-empty list it does not
    end that way, and goes on to the next statement, which applies the
    logger configuration. *)
Theorem main_requires_backends intSize env cfg c :
  defaultLoggerErr env = false ->
  flagConfig env <> "" ->
  readFile env (flagConfig env) = Some cfg ->
  yamlUnmarshal env cfg defaultConfig = Some c ->
  let r := main intSize env initialProcess in
  (Backends c = [] ->
   snd r = Stop "no Backends loaded -- exiting" /\ events (fst r) = [])
  /\
  (Backends c <> [] ->
   snd r <> Stop "no Backends loaded -- exiting" /\
   exists rest, events (fst r) = EvApplyLogger (Logger c) :: rest).
Proof.
  intros Hlog Hflag Hread Hyaml. cbv zeta. unfold_startup.
  rewrite Hlog, bool_decide_eq_false_2 by exact Hflag.
  rewrite Hread. cbn. rewrite Hyaml. cbn.
  split.
  - intros ->. cbn. split; reflexivity.
  - intros Hne. destruct (Backends c) as [|b bs]; [congruence|]. cbn.
    destruct (applyLoggerErr env (Logger c)); cbn;
      [split; [discriminate | eauto]|].
    split; [apply mainServe_avoids|].
    destruct (mainServe_extends intSize env c
                {| config := c;
                   searchConfigured :=
                     (len (zipper.Prefix (CarbonSearch c)) >? 0)
                     && (len (zipper.Backend (CarbonSearch c)) >? 0);
                   timeBuckets := [];
                   events := [EvApplyLogger (Logger c)] |}) as [rest Hrest].
    exists rest. exact Hrest.
Qed.

Lemma main_requires_backends_witness :
  let empty := Examples.fileConfig [] (CarbonSearch defaultConfig) in
  let two := Examples.fileConfig ["http://a:8080"; "http://b:8080"]
               (CarbonSearch defaultConfig) in
  snd (main 64 (Examples.env empty) initialProcess)
  = Stop "no Backends loaded -- exiting" /\
  events (fst (main 64 (Examples.env empty) initialProcess)) = [] /\
  snd (main 64 (Examples.env two) initialProcess)
  <> Stop "no Backends loaded -- exiting".
Proof.
  intros empty two.
  destruct (main_requires_backends 64 (Examples.env empty) "backends: ..." empty
              eq_refl ltac:(discriminate) eq_refl eq_refl) as [Hempty _].
  destruct (main_requires_backends 64 (Examples.env two) "backends: ..." two
              eq_refl ltac:(discriminate) eq_refl eq_refl) as [_ Htwo].
  destruct (Hempty eq_refl) as [Hstop Hev].
  destruct (Htwo ltac:(discriminate)) as [Hgo _].
  split; [exact Hstop|]. split; [exact Hev | exact Hgo].
Defined.

(** C6.  In a process that gets past the checks of the backend list and
    of the logger configuration, [searchConfigured] is set once, by the
    assignment in [main], and is true exactly when both the prefix and the
    backend of the CarbonSearch configuration are non-empty. *)
Theorem searchConfigured_iff intSize env cfg c :
  defaultLoggerErr env = false ->
  flagConfig env <> "" ->
  readFile env (flagConfig env) = Some cfg ->
  yamlUnmarshal env cfg defaultConfig = Some c ->
  Backends c <> [] ->
  applyLoggerErr env (Logger c) = false ->
  searchConfigured (fst (main intSize env initialProcess)) = true
  <-> zipper.Prefix (CarbonSearch c) <> "" /\ zipper.Backend (CarbonSearch c) <> "".
Proof.
  intros Hlog Hflag Hread Hyaml Hne Happly.
  rewrite <- !len_positive, <- andb_true_iff.
  unfold_startup.
  rewrite Hlog, bool_decide_eq_false_2 by exact Hflag.
  rewrite Hread. cbn. rewrite Hyaml. cbn.
  assert (Hlen : length (Backends c) <> 0%nat)
    by (destruct (Backends c); [congruence | discriminate]).
  rewrite (bool_decide_eq_false_2 _ Hlen). cbn.
  rewrite Happly. cbn.
  rewrite mainServe_keeps_searchConfigured. reflexivity.
Qed.

Lemma searchConfigured_iff_witness :
  let both := Examples.fileConfig ["http://a:8080"]
                {| zipper.Backend := "http://search:8070";
                   zipper.Prefix := "virt.v1." |} in
  let prefixOnly := Examples.fileConfig ["http://a:8080"]
                      {| zipper.Backend := ""; zipper.Prefix := "virt.v1." |} in
  searchConfigured (fst (main 64 (Examples.env both) initialProcess)) = true /\
  searchConfigured (fst (main 64 (Examples.env prefixOnly) initialProcess)) <> true.
Proof.
  intros both prefixOnly.
  pose proof (searchConfigured_iff 64 (Examples.env both) "backends: ..." both
                eq_refl ltac:(discriminate) eq_refl eq_refl
                ltac:(discriminate) eq_refl) as Hboth.
  pose proof (searchConfigured_iff 64 (Examples.env prefixOnly) "backends: ..."
                prefixOnly eq_refl ltac:(discriminate) eq_refl eq_refl
                ltac:(discriminate) eq_refl) as Hprefix.
  split.
  - apply Hboth. split; discriminate.
  - intros Htrue. apply Hprefix in Htrue. destruct Htrue as [_ Hb].
    apply Hb. reflexivity.
Defined.

(* ===================================================================== *)
(** * Further properties of the handlers, the histogram and the startup *)
(* ===================================================================== *)

(** ** How requests are counted and validated *)

(** Run a handler down to the case distinctions it makes. *)
Ltac run_handlers :=
  cbv [findHandler renderHandler infoHandler lbCheckHandler badRequest
       encodeFindResponse encodeRenderResponse encodeInfoResponse
       encode marshalAndWrite zipperFind zipperRender zipperInfo
       sendStats when hreturn hpanic hstop hbind hret
       onWriter onMetrics logCall isErr].

(** X1.  Every run of a handler adds one to [requests] and one to the
    handler's own request counter ([lbCheckHandler] has none) and leaves
    the request counters of the other handlers alone.  A run that falls
    through adds one to [responses], a run that returns early adds one to
    [errors], and a run that panics adds to neither. *)
Theorem handlers_count_each_request intSize cfg z me now lv req w :
  counted Metrics.FindRequests [Metrics.RenderRequests; Metrics.InfoRequests]
    w (findHandler cfg z me now req w) /\
  counted Metrics.RenderRequests [Metrics.FindRequests; Metrics.InfoRequests]
    w (renderHandler intSize z me req w) /\
  counted Metrics.InfoRequests [Metrics.FindRequests; Metrics.RenderRequests]
    w (infoHandler z me lv req w) /\
  counted Metrics.Requests
    [Metrics.FindRequests; Metrics.RenderRequests; Metrics.InfoRequests]
    w (lbCheckHandler req w).
Proof.
  unfold counted. repeat apply conj.
  all: run_handlers; cbn.
  all: handler_cases.
  all: repeat (apply conj || apply Forall_cons || apply Forall_nil); reflexivity.
Qed.

(** X2.  [findHandler] calls the engine exactly once, with [Find];
    [renderHandler] and [infoHandler] call it at most once, with [Render]
    and [Info]; [lbCheckHandler] never calls it. *)
Theorem handlers_call_engine_at_most_once intSize cfg z me now lv req w :
  (exists c, (exists q, c = zipper.CallFind q) /\
     calls (fst (findHandler cfg z me now req w)) = (calls w ++ [c])%list) /\
  callOf (fun c => exists t f u, c = zipper.CallRender t f u) w
         (renderHandler intSize z me req w) /\
  callOf (fun c => exists t, c = zipper.CallInfo t) w
         (infoHandler z me lv req w) /\
  calls (fst (lbCheckHandler req w)) = calls w.
Proof.
  unfold callOf. repeat apply conj.
  - eexists. split; [eexists; reflexivity|]. run_handlers. cbn.
    handler_cases; reflexivity.
  - run_handlers. cbn. handler_cases; eauto 8.
  - run_handlers. cbn. handler_cases; eauto 8.
  - reflexivity.
Qed.

(** X3.  The checks of [renderHandler], in their order: a form that does
    not parse, then [from], then [until], then an empty target.  The first
    check that fails decides the message; the reply is 400 with that
    message alone, the engine is not called and one error is counted.  A
    request that passes all four reaches [zipper.Render]. *)
Theorem renderHandler_validation_order intSize z me req m :
  let r := renderHandler intSize z me req (newWorld m) in
  if isErr (ParseFormErr req) then rejected "failed to parse arguments" m r
  else
    match strconv.Atoi intSize (FormValue req "from") with
    | None => rejected "from is not a integer" m r
    | Some from =>
        match strconv.Atoi intSize (FormValue req "until") with
        | None => rejected "until is not a integer" m r
        | Some until =>
            if bool_decide (FormValue req "target" = "")
            then rejected "empty target" m r
            else calls (fst r)
                 = [zipper.CallRender (FormValue req "target")
                      (GoInt.int32 from) (GoInt.int32 until)]
        end
    end.
Proof.
  cbv zeta. unfold rejected. run_handlers. cbn.
  destruct (ParseFormErr req) as [e|]; cbn.
  { handler_cases; repeat split; reflexivity. }
  destruct (strconv.Atoi intSize (FormValue req "from")) as [from|]; cbn;
    [|repeat split; reflexivity].
  destruct (strconv.Atoi intSize (FormValue req "until")) as [until|]; cbn;
    [|repeat split; reflexivity].
  destruct (bool_decide (FormValue req "target" = "")); cbn;
    [repeat split; reflexivity|].
  handler_cases; reflexivity.
Qed.

(** X4.  The checks of [infoHandler]: a form that does not parse, then an
    empty target, each answered with 400 and its own message, without an
    engine call; any other request reaches [zipper.Info]. *)
Theorem infoHandler_validation_order z me lv req m :
  let r := infoHandler z me lv req (newWorld m) in
  if isErr (ParseFormErr req) then rejected "failed to parse arguments" m r
  else if bool_decide (FormValue req "target" = "")
       then rejected "info: empty target" m r
       else calls (fst r) = [zipper.CallInfo (FormValue req "target")].
Proof.
  cbv zeta. unfold rejected. run_handlers. cbn.
  destruct (ParseFormErr req) as [e|]; cbn.
  { handler_cases; repeat split; reflexivity. }
  destruct (bool_decide (FormValue req "target" = "")); cbn;
    [repeat split; reflexivity|].
  handler_cases; reflexivity.
Qed.

(** ** Replies after the engine call *)

Ltac valid_render H :=
  destruct H as (Hp & Hf & Hu & Ht); run_handlers; rewrite Hp, Hf, Hu; cbn;
  rewrite (bool_decide_eq_false_2 _ Ht); cbn.

Ltac valid_info H :=
  destruct H as (Hp & Ht); run_handlers; rewrite Hp; cbn;
  rewrite (bool_decide_eq_false_2 _ Ht); cbn.

(** Run the statements of a handler, leaving the encoders folded. *)
Ltac step_handlers :=
  cbv [exec hbind hret hstop hreturn when isErr onMetrics onWriter logCall
       sendStats metrics writer calls fst].

(** Each handler is its entry statements, then either the reply to a
    failed engine call or the encoder followed by [finish]. *)
Lemma findHandler_steps cfg z me now req w ms st err :
  zipper.Find z (FormValue req "query") = (ms, st, err) ->
  findHandler cfg z me now req w =
  let w1 := entered Metrics.FindRequests
              (zipper.CallFind (FormValue req "query")) st w in
  match err with
  | Some _ => engineFailed "error fetching the data" w1
  | None => finish (encodeFindResponse cfg me now (FormValue req "format")
                      (FormValue req "query") ms w1)
  end.
Proof.
  intros H. unfold findHandler, zipperFind, finish, engineFailed, entered.
  step_handlers. rewrite H. destruct err; [reflexivity|].
  destruct (encodeFindResponse _ _ _ _ _ _ _) as [w2 [[e|]|h]]; reflexivity.
Qed.

Lemma renderHandler_steps intSize z me req w from until ms st err :
  validRender intSize req from until ->
  zipper.Render z (FormValue req "target") (GoInt.int32 from) (GoInt.int32 until)
  = (ms, st, err) ->
  renderHandler intSize z me req w =
  let w1 := entered Metrics.RenderRequests
              (zipper.CallRender (FormValue req "target")
                 (GoInt.int32 from) (GoInt.int32 until)) st w in
  match err with
  | Some _ => engineFailed "error fetching the data" w1
  | None => finish (encodeRenderResponse me (FormValue req "format") ms w1)
  end.
Proof.
  intros (Hp & Hf & Hu & Ht) H.
  unfold renderHandler, zipperRender, finish, engineFailed, entered.
  rewrite Hp, Hf, Hu, (bool_decide_eq_false_2 _ Ht).
  step_handlers. rewrite H. destruct err; [reflexivity|].
  destruct (encodeRenderResponse _ _ _ _) as [w2 [[e|]|h]]; reflexivity.
Qed.

Lemma infoHandler_steps z me lv req w ms st err :
  validInfo req ->
  zipper.Info z (FormValue req "target") = (ms, st, err) ->
  infoHandler z me lv req w =
  let w1 := entered Metrics.InfoRequests
              (zipper.CallInfo (FormValue req "target")) st w in
  match err with
  | Some _ => engineFailed "info: error processing request" w1
  | None => finish (encodeInfoResponse me lv (FormValue req "format") ms w1)
  end.
Proof.
  intros (Hp & Ht) H.
  unfold infoHandler, zipperInfo, finish, engineFailed, entered.
  rewrite Hp, (bool_decide_eq_false_2 _ Ht).
  step_handlers. rewrite H. destruct err; [reflexivity|].
  destruct (encodeInfoResponse _ _ _ _ _) as [w2 [[e|]|h]]; reflexivity.
Qed.

(** The content type [findHandler] and [renderHandler] answer a format
    with, and the one [infoHandler] does. *)
Ltac run_encoders :=
  cbv [finish entered engineFailed encode marshalAndWrite
       exec hbind hret hstop hreturn hpanic when isErr
       onMetrics onWriter logCall sendStats fst snd
       metrics writer calls newWorld].

(** X5.  When the engine call returns an error, the reply is 500 with a
    fixed message ("error fetching the data" for find and render, "info:
    error processing request" for info) and nothing else in the body: the
    engine's own error text is not sent.  The run counts one error and no
    response. *)
Theorem engine_error_replies_500 intSize cfg z me now lv req m e :
  (snd (zipper.Find z (FormValue req "query")) = Some e ->
   failed 500 "error fetching the data" m (findHandler cfg z me now req (newWorld m)))
  /\
  (forall from until,
     validRender intSize req from until ->
     snd (zipper.Render z (FormValue req "target")
            (GoInt.int32 from) (GoInt.int32 until)) = Some e ->
     failed 500 "error fetching the data" m
       (renderHandler intSize z me req (newWorld m)))
  /\
  (validInfo req ->
   snd (zipper.Info z (FormValue req "target")) = Some e ->
   failed 500 "info: error processing request" m
     (infoHandler z me lv req (newWorld m))).
Proof.
  unfold failed. repeat apply conj.
  - run_handlers. cbn.
    destruct (zipper.Find z (FormValue req "query")) as [[ms st] err]. cbn.
    intros ->. cbn. repeat split; reflexivity.
  - intros from until Hv. valid_render Hv.
    destruct (zipper.Render z _ _ _) as [[ms st] err]. cbn.
    intros ->. cbn. repeat split; reflexivity.
  - intros Hv. valid_info Hv.
    destruct (zipper.Info z _) as [[ms st] err]. cbn.
    intros ->. cbn. repeat split; reflexivity.
Qed.

Lemma engine_error_replies_500_witness :
  let req := Examples.request
               [("target", "broken"); ("from", "0"); ("until", "60")] in
  failed 500 "error fetching the data" Metrics.zero
    (renderHandler 64 Examples.engine Examples.noMarshalErr req
       (newWorld Metrics.zero)).
Proof.
  intros req.
  destruct (engine_error_replies_500 64 defaultConfig Examples.engine
              Examples.noMarshalErr 1500000000 false req Metrics.zero
              "no backend answered") as (_ & Hrender & _).
  apply (Hrender 0 60).
  - repeat split; vm_compute; (reflexivity || discriminate).
  - vm_compute. reflexivity.
Defined.

(** X6.  A format that no arm of the handler's [switch] names gets no
    reply from the handler: no header is set and nothing is written (the
    server then sends an empty 200), and the request is counted as a
    response.  For [infoHandler] "pickle" is such a format. *)
Theorem unknown_format_replies_nothing intSize cfg z me now lv req m :
  (classify (FormValue req "format") = FOther ->
   snd (zipper.Find z (FormValue req "query")) = None ->
   silent m (findHandler cfg z me now req (newWorld m)))
  /\
  (forall from until,
     classify (FormValue req "format") = FOther ->
     validRender intSize req from until ->
     snd (zipper.Render z (FormValue req "target")
            (GoInt.int32 from) (GoInt.int32 until)) = None ->
     silent m (renderHandler intSize z me req (newWorld m)))
  /\
  (classify (FormValue req "format") = FOther \/
   classify (FormValue req "format") = FPickle ->
   validInfo req ->
   snd (zipper.Info z (FormValue req "target")) = None ->
   silent m (infoHandler z me lv req (newWorld m))).
Proof.
  unfold silent. repeat apply conj.
  - intros Hfmt. run_handlers. rewrite Hfmt. cbn.
    destruct (zipper.Find z (FormValue req "query")) as [[ms st] err]. cbn.
    intros ->. cbn. repeat split; reflexivity.
  - intros from until Hfmt Hv. valid_render Hv. rewrite Hfmt.
    destruct (zipper.Render z _ _ _) as [[ms st] err]. cbn.
    intros ->. cbn. repeat split; reflexivity.
  - intros Hfmt Hv. valid_info Hv.
    destruct (zipper.Info z _) as [[ms st] err]. cbn.
    intros ->. destruct Hfmt as [-> | ->]; cbn; repeat split; reflexivity.
Qed.

Lemma unknown_format_replies_nothing_witness :
  silent Metrics.zero
    (infoHandler Examples.engine Examples.noMarshalErr false
       (Examples.request [("target", "host.cpu"); ("format", "pickle")])
       (newWorld Metrics.zero)) /\
  silent Metrics.zero
    (findHandler defaultConfig Examples.engine Examples.noMarshalErr 1500000000
       (Examples.request [("query", "host.*"); ("format", "msgpack")])
       (newWorld Metrics.zero)).
Proof.
  split.
  - destruct (unknown_format_replies_nothing 64 defaultConfig Examples.engine
                Examples.noMarshalErr 1500000000 false
                (Examples.request [("target", "host.cpu"); ("format", "pickle")])
                Metrics.zero) as (_ & _ & Hinfo).
    apply Hinfo.
    + right. vm_compute. reflexivity.
    + split; vm_compute; (reflexivity || discriminate).
    + vm_compute. reflexivity.
  - destruct (unknown_format_replies_nothing 64 defaultConfig Examples.engine
                Examples.noMarshalErr 1500000000 false
                (Examples.request [("query", "host.*"); ("format", "msgpack")])
                Metrics.zero) as (Hfind & _).
    apply Hfind; vm_compute; reflexivity.
Defined.

(** X7.  When the engine call and the encoder succeed, the reply is 200
    with one encoded payload and the content type of the format:
    protobuf for "protobuf" and "protobuf3", JSON for "json", pickle for
    "pickle".  Without a format [findHandler] and [renderHandler] answer
    in pickle and [infoHandler] in JSON.  (For render, every series must
    have a flag for each value.) *)
Theorem content_type_follows_format intSize cfg z me now lv req m ct :
  (forall p, me p = None) ->
  (listingContentType (classify (FormValue req "format")) = Some ct ->
   snd (zipper.Find z (FormValue req "query")) = None ->
   answered ct m (findHandler cfg z me now req (newWorld m)))
  /\
  (forall from until,
     listingContentType (classify (FormValue req "format")) = Some ct ->
     validRender intSize req from until ->
     (let r := zipper.Render z (FormValue req "target")
                 (GoInt.int32 from) (GoInt.int32 until) in
      snd r = None /\ Forall covers (pb3.GetMetrics (fst (fst r)))) ->
     answered ct m (renderHandler intSize z me req (newWorld m)))
  /\
  (infoContentType (classify (FormValue req "format")) = Some ct ->
   validInfo req ->
   snd (zipper.Info z (FormValue req "target")) = None ->
   answered ct m (infoHandler z me lv req (newWorld m))).
Proof.
  intros Hme. unfold answered. repeat apply conj.
  - destruct (zipper.Find z (FormValue req "query")) as [[ms st] err] eqn:HF.
    intros Hct Herr. cbn in Herr. subst err.
    rewrite (findHandler_steps _ _ _ _ _ _ _ _ _ HF). cbv zeta.
    unfold encodeFindResponse.
    destruct (classify (FormValue req "format")); simplify_eq/=;
      run_encoders; rewrite Hme; cbn; repeat split; eauto.
  - intros from until Hct Hv.
    destruct (zipper.Render z _ _ _) as [[ms st] err] eqn:HR.
    cbn [fst snd]. intros [-> Hc].
    rewrite (renderHandler_steps _ _ _ _ _ _ _ _ _ _ Hv HR). cbv zeta.
    unfold encodeRenderResponse.
    pose proof (proj2 (createRenderResponse_returns_iff ms INil) Hc) as [r1 Hr1].
    pose proof (proj2 (createRenderResponse_returns_iff ms IPickleNone) Hc) as [r2 Hr2].
    destruct (classify (FormValue req "format")); simplify_eq/=;
      rewrite ?Hr1, ?Hr2; run_encoders; rewrite Hme; cbn; repeat split; eauto.
  - intros Hct Hv.
    destruct (zipper.Info z _) as [[ms st] err] eqn:HI.
    cbn [fst snd]. intros ->.
    rewrite (infoHandler_steps _ _ _ _ _ _ _ _ Hv HI). cbv zeta.
    unfold encodeInfoResponse.
    destruct (classify (FormValue req "format")); simplify_eq/=;
      run_encoders; rewrite Hme; cbn; repeat split; eauto.
Qed.

Lemma content_type_follows_format_witness :
  answered contentTypeJSON Metrics.zero
    (infoHandler Examples.engine Examples.noMarshalErr false
       (Examples.request [("target", "host.cpu")]) (newWorld Metrics.zero)) /\
  answered contentTypePickle Metrics.zero
    (renderHandler 64 Examples.engine Examples.noMarshalErr
       (Examples.request [("target", "host.cpu"); ("from", "0"); ("until", "60")])
       (newWorld Metrics.zero)).
Proof.
  split.
  - destruct (content_type_follows_format 64 defaultConfig Examples.engine
                Examples.noMarshalErr 1500000000 false
                (Examples.request [("target", "host.cpu")]) Metrics.zero
                contentTypeJSON (fun _ => eq_refl)) as (_ & _ & Hinfo).
    apply Hinfo.
    + vm_compute. reflexivity.
    + split; vm_compute; (reflexivity || discriminate).
    + vm_compute. reflexivity.
  - destruct (content_type_follows_format 64 defaultConfig Examples.engine
                Examples.noMarshalErr 1500000000 false
                (Examples.request
                   [("target", "host.cpu"); ("from", "0"); ("until", "60")])
                Metrics.zero contentTypePickle (fun _ => eq_refl))
      as (_ & Hrender & _).
    apply (Hrender 0 60).
    + vm_compute. reflexivity.
    + repeat split; vm_compute; (reflexivity || discriminate).
    + split; [vm_compute; reflexivity|]. repeat constructor.
Defined.

(** X8.  When the encoder fails, the run counts one error and the body is
    the line "error marshaling data".  In the JSON and pickle arms the
    status is 500.  In the protobuf arm the handler has already called
    [w.Write] with the result of [Marshal] before it looks at the error,
    so the status sent is 200. *)
Theorem marshal_error_status intSize cfg z me now lv req m :
  (forall p, me p <> None) ->
  let code f := match f with FProtobuf => 200 | _ => 500 end in
  (forall ct,
     listingContentType (classify (FormValue req "format")) = Some ct ->
     snd (zipper.Find z (FormValue req "query")) = None ->
     failed (code (classify (FormValue req "format"))) "error marshaling data" m
       (findHandler cfg z me now req (newWorld m)))
  /\
  (forall ct from until,
     listingContentType (classify (FormValue req "format")) = Some ct ->
     validRender intSize req from until ->
     (let r := zipper.Render z (FormValue req "target")
                 (GoInt.int32 from) (GoInt.int32 until) in
      snd r = None /\ Forall covers (pb3.GetMetrics (fst (fst r)))) ->
     failed (code (classify (FormValue req "format"))) "error marshaling data" m
       (renderHandler intSize z me req (newWorld m)))
  /\
  (forall ct,
     infoContentType (classify (FormValue req "format")) = Some ct ->
     validInfo req ->
     snd (zipper.Info z (FormValue req "target")) = None ->
     failed (code (classify (FormValue req "format"))) "error marshaling data" m
       (infoHandler z me lv req (newWorld m))).
Proof.
  intros Hme. cbv zeta. unfold failed.
  assert (Hcase : forall p, exists e, me p = Some e).
  { intros p. destruct (me p) as [e|] eqn:He; [eauto | destruct (Hme p He)]. }
  repeat apply conj.
  - intros ct.
    destruct (zipper.Find z (FormValue req "query")) as [[ms st] err] eqn:HF.
    intros Hct Herr. cbn in Herr. subst err.
    rewrite (findHandler_steps _ _ _ _ _ _ _ _ _ HF). cbv zeta.
    unfold encodeFindResponse.
    destruct (classify (FormValue req "format")); simplify_eq/=;
      run_encoders;
      match goal with |- context [me ?p] => destruct (Hcase p) as [e ->] end;
      cbn; repeat split; reflexivity.
  - intros ct from until Hct Hv.
    destruct (zipper.Render z _ _ _) as [[ms st] err] eqn:HR.
    cbn [fst snd]. intros [-> Hc].
    rewrite (renderHandler_steps _ _ _ _ _ _ _ _ _ _ Hv HR). cbv zeta.
    unfold encodeRenderResponse.
    pose proof (proj2 (createRenderResponse_returns_iff ms INil) Hc) as [r1 Hr1].
    pose proof (proj2 (createRenderResponse_returns_iff ms IPickleNone) Hc) as [r2 Hr2].
    destruct (classify (FormValue req "format")); simplify_eq/=;
      rewrite ?Hr1, ?Hr2; run_encoders;
      match goal with |- context [me ?p] => destruct (Hcase p) as [e ->] end;
      cbn; repeat split; reflexivity.
  - intros ct Hct Hv.
    destruct (zipper.Info z _) as [[ms st] err] eqn:HI.
    cbn [fst snd]. intros ->.
    rewrite (infoHandler_steps _ _ _ _ _ _ _ _ Hv HI). cbv zeta.
    unfold encodeInfoResponse.
    destruct (classify (FormValue req "format")); simplify_eq/=;
      run_encoders;
      match goal with |- context [me ?p] => destruct (Hcase p) as [e ->] end;
      cbn; repeat split; reflexivity.
Qed.

Lemma marshal_error_status_witness :
  failed 200 "error marshaling data" Metrics.zero
    (findHandler defaultConfig Examples.engine MoreExamples.brokenEncoder
       1500000000
       (Examples.request [("query", "host.*"); ("format", "protobuf")])
       (newWorld Metrics.zero)) /\
  failed 500 "error marshaling data" Metrics.zero
    (findHandler defaultConfig Examples.engine MoreExamples.brokenEncoder
       1500000000
       (Examples.request [("query", "host.*"); ("format", "json")])
       (newWorld Metrics.zero)).
Proof.
  split.
  - destruct (marshal_error_status 64 defaultConfig Examples.engine
                MoreExamples.brokenEncoder 1500000000 false
                (Examples.request [("query", "host.*"); ("format", "protobuf")])
                Metrics.zero ltac:(discriminate)) as (Hfind & _).
    apply (Hfind contentTypeProtobuf); vm_compute; reflexivity.
  - destruct (marshal_error_status 64 defaultConfig Examples.engine
                MoreExamples.brokenEncoder 1500000000 false
                (Examples.request [("query", "host.*"); ("format", "json")])
                Metrics.zero ltac:(discriminate)) as (Hfind & _).
    apply (Hfind contentTypeJSON); vm_compute; reflexivity.
Defined.

(** X9.  When the engine returns a series with more values than absent
    flags, [renderHandler] panics in the JSON and pickle formats: nothing
    is written and neither a response nor an error is counted (the
    request itself was).  The protobuf format does not read the flags and
    answers 200; an unknown format writes nothing. *)
Theorem renderHandler_short_flags intSize z me req m from until :
  validRender intSize req from until ->
  (let r := zipper.Render z (FormValue req "target")
              (GoInt.int32 from) (GoInt.int32 until) in
   snd r = None /\ ~ Forall covers (pb3.GetMetrics (fst (fst r)))) ->
  match classify (FormValue req "format") with
  | FJSON | FPickle | FEmpty =>
      crashed m (renderHandler intSize z me req (newWorld m))
  | FProtobuf =>
      snd (renderHandler intSize z me req (newWorld m)) <> Stop Panic /\
      status (writer (fst (renderHandler intSize z me req (newWorld m)))) = Some 200
  | FOther => silent m (renderHandler intSize z me req (newWorld m))
  end.
Proof.
  intros Hv. unfold crashed, silent.
  destruct (zipper.Render z _ _ _) as [[ms st] err] eqn:HR.
  cbn [fst snd]. intros [-> Hc].
  rewrite (renderHandler_steps _ _ _ _ _ _ _ _ _ _ Hv HR). cbv zeta.
  unfold encodeRenderResponse.
  assert (Hnone : forall missing, createRenderResponse ms missing = None).
  { intros missing. destruct (createRenderResponse ms missing) eqn:Hr; [|reflexivity].
    destruct Hc. apply (createRenderResponse_returns_iff ms missing). eauto. }
  destruct (classify (FormValue req "format"));
    rewrite ?Hnone; run_encoders; cbn; try (repeat split; reflexivity).
  destruct (me (PProtoFetch ms)); cbn; split; (discriminate || reflexivity).
Qed.

Lemma renderHandler_short_flags_witness :
  crashed Metrics.zero
    (renderHandler 64 MoreExamples.shortFlagsEngine Examples.noMarshalErr
       (Examples.request
          [("target", "host.cpu"); ("from", "0"); ("until", "60");
           ("format", "json")])
       (newWorld Metrics.zero)).
Proof.
  refine (renderHandler_short_flags 64 MoreExamples.shortFlagsEngine
            Examples.noMarshalErr
            (Examples.request
               [("target", "host.cpu"); ("from", "0"); ("until", "60");
                ("format", "json")])
            Metrics.zero 0 60 _ _).
  - repeat split; vm_compute; (reflexivity || discriminate).
  - split; [vm_compute; reflexivity|].
    intros Hall. apply Forall_inv in Hall. vm_compute in Hall. lia.
Defined.

(** ** Render and info responses *)

(** X10.  [createRenderResponse] builds one map per series, in the order
    of the series, with exactly the keys start, step, end, name and
    values; name, start, step and end are the series' name, start time,
    step time and stop time. *)
Theorem createRenderResponse_describes_series metrics missing :
  Forall covers (pb3.GetMetrics metrics) ->
  exists response,
    createRenderResponse metrics missing = Some response /\
    Forall2 describes (pb3.GetMetrics metrics) response.
Proof.
  unfold createRenderResponse.
  induction 1 as [|metric l Hc _ IH]; cbn [renderEntries].
  - exists []. split; [reflexivity | constructor].
  - destruct IH as (response & Hr & Hall). unfold renderEntry.
    destruct (pvaluesFrom_covered missing (pb3.IsAbsent metric)
                (pb3.Values metric) 0%nat Hc) as (pv & Hpv & _).
    rewrite Hpv, Hr. eexists. split; [reflexivity|].
    constructor; [|exact Hall].
    unfold describes. repeat split; reflexivity.
Qed.

Lemma createRenderResponse_describes_series_witness :
  exists response,
    createRenderResponse {| pb3.GetMetrics := [Examples.cpu] |} IPickleNone
    = Some response /\
    Forall2 describes [Examples.cpu] response.
Proof.
  apply (createRenderResponse_describes_series
           {| pb3.GetMetrics := [Examples.cpu] |} IPickleNone).
  repeat constructor.
Defined.

(** With a variable per iteration every pointer has a cell of its own. *)
Lemma infoLoop_own_variable infos : forall cell st responses,
  (forall a, (cell <= a)%nat -> st !! a = None) ->
  let r := infoLoop true infos cell st responses in
  (forall a v, st !! a = Some v -> fst r !! a = Some v) /\
  exists entries,
    snd r = (responses ++ entries)%list /\
    map (deref (fst r)) entries = map (fun si => (fst si, Some (snd si))) infos.
Proof.
  induction infos as [|[s i] infos IH]; intros cell st responses Hfresh; cbn [infoLoop].
  - cbv zeta. cbn. split; [auto|]. exists []. rewrite app_nil_r. auto.
  - cbv beta iota zeta in *.
    destruct (IH (S cell) (<[cell := i]> st)
                (responses ++ [{| pb3.Server := s; pb3.Info := Some cell |}])%list)
      as (Hkeep & entries & He & Hd).
    { intros a Ha. rewrite lookup_insert_ne by lia. apply Hfresh. lia. }
    split.
    + intros a v Hav. apply Hkeep.
      rewrite lookup_insert_ne; [exact Hav|].
      intros <-. rewrite Hfresh in Hav by lia. discriminate.
    + exists ({| pb3.Server := s; pb3.Info := Some cell |} :: entries).
      split; [etransitivity; [exact He|]; rewrite <- app_assoc; reflexivity|].
      cbn [map]. f_equal; [|exact Hd]. unfold deref. cbn.
      f_equal. apply (Hkeep cell i). apply lookup_insert_eq.
Qed.

(** X11.  Where [range] gives every iteration a variable of its own, the
    protobuf arm of [infoHandler] pairs every backend with its own
    metadata, in iteration order; the entries [make] created, as many
    again and all zero-valued, still come first. *)
Theorem buildInfoResponse_own_variable infos :
  marshalView (buildInfoResponse true infos)
  = (replicate (length infos) ("", None)
     ++ map (fun si => (fst si, Some (snd si))) infos)%list.
Proof.
  unfold buildInfoResponse, marshalView.
  destruct (infoLoop_own_variable infos 0%nat ∅
              (replicate (length infos) pb3.zeroServerInfoResponse))
    as (_ & entries & He & Hd).
  { intros a _. apply lookup_empty. }
  destruct (infoLoop true infos 0%nat ∅ _) as [st rs]. cbn in *. subst rs.
  rewrite map_app, Hd. f_equal.
  induction (length infos) as [|n IHn]; cbn; [reflexivity | f_equal; exact IHn].
Qed.

(** ** Statistics and counters *)

Lemma wrap_add_l bits x y :
  0 < bits -> GoInt.wrap bits (GoInt.wrap bits x + y) = GoInt.wrap bits (x + y).
Proof.
  intros Hb. unfold GoInt.wrap.
  replace ((x + 2 ^ (bits - 1)) mod 2 ^ bits - 2 ^ (bits - 1) + y + 2 ^ (bits - 1))
    with ((x + 2 ^ (bits - 1)) mod 2 ^ bits + y) by lia.
  rewrite Zplus_mod_idemp_l. f_equal. f_equal. lia.
Qed.

(** X12.  Folding the statistics of two calls adds, to each of the nine
    counters, the sum of the two fields of its name (as an [int64]), in
    whichever order the two are folded; [sendStats] never changes the
    request, response and error counters. *)
Theorem sendStats_accumulates s1 s2 w c :
  metrics (exec (sendStats s1 ;; sendStats s2) w) c
  = match statsField c with
    | Some f => GoInt.int64 (metrics w c + (f s1 + f s2))
    | None => metrics w c
    end
  /\ metrics (exec (sendStats s1 ;; sendStats s2) w) c
     = metrics (exec (sendStats s2 ;; sendStats s1) w) c.
Proof.
  assert (Hseq : forall a b,
    exec (sendStats a ;; sendStats b) w = exec (sendStats b) (exec (sendStats a) w)).
  { intros a b.
    cbv [exec hbind sendStats onMetrics fst metrics writer calls]. reflexivity. }
  assert (H : forall a b,
    metrics (exec (sendStats a ;; sendStats b) w) c
    = match statsField c with
      | Some f => GoInt.int64 (metrics w c + (f a + f b))
      | None => metrics w c
      end).
  { intros a b. rewrite Hseq, !sendStats_metrics.
    destruct (statsField c) as [f|]; [|reflexivity].
    unfold GoInt.int64. rewrite wrap_add_l by lia. f_equal. lia. }
  split; [apply H|]. rewrite !H. destruct (statsField c); [|reflexivity].
  f_equal. lia.
Qed.

(** X13.  The fifteen counters are published under fifteen different
    names ([expvar.NewInt] panics on a name used twice). *)
Theorem expvarName_injective c c' :
  Metrics.expvarName c = Metrics.expvarName c' -> c = c'.
Proof. destruct c, c'; intros H; (reflexivity || discriminate H). Qed.

Lemma expvarName_injective_witness :
  Metrics.CacheHits = Metrics.CacheHits.
Proof.
  exact (expvarName_injective Metrics.CacheHits Metrics.CacheHits eq_refl).
Defined.

(** ** The histogram *)

(** X14.  With up to 57 buckets configured, a call of
    [bucketRequestTimes] that returns has counted a request of less than
    50 ms, logged it as slow, and changed the overflow cell
    [timeBuckets[config.Buckets]] alone: none of the cells 0 to
    [config.Buckets-1] is ever incremented. *)
Theorem bucketRequestTimes_only_overflow intSize B tb t tb' slow :
  0 <= B <= 57 -> B + 1 < 2 ^ (intSize - 1) -> 1 < intSize ->
  bucketRequestTimes intSize B tb t = Some (tb', slow) ->
  GoInt.div64 t 1000000 < 50 /\
  slow = true /\
  length tb' = length tb /\
  (exists x, tb !! Z.to_nat B = Some x /\ tb' !! Z.to_nat B = Some (GoInt.int64 (x + 1))) /\
  forall i : nat, i <> Z.to_nat B -> tb' !! i = tb !! i.
Proof.
  intros HB Hfit Hsz Hrun.
  destruct (Z.lt_ge_cases (GoInt.div64 t 1000000) 50) as [Hfast|Hslow].
  - split; [exact Hfast|].
    destruct (tb !! Z.to_nat B) as [x|] eqn:Hx.
    + rewrite (bucketRequestTimes_fast_overflow intSize B tb t x) in Hrun
        by assumption.
      injection Hrun as <- <-.
      split; [reflexivity|]. split; [apply length_insert|].
      split.
      * exists x. split; [reflexivity|].
        apply list_lookup_insert_eq. eapply lookup_lt_Some. exact Hx.
      * intros i Hi. apply list_lookup_insert_ne. congruence.
    + exfalso. unfold bucketRequestTimes in Hrun.
      assert (Hp : 0 < 2 ^ (intSize - 1)) by (apply Z.pow_pos_nonneg; lia).
      rewrite (wrap_small intSize (B + 1)) in Hrun by lia.
      rewrite (bucketLoop_fast _ (B + 1)) in Hrun by lia.
      destruct (Z.ltb_spec (B + 1) B); [lia|].
      unfold addBucket in Hrun. rewrite Hx in Hrun.
      destruct (_ && _) in Hrun; discriminate.
  - rewrite bucketRequestTimes_slow_panics in Hrun by lia. discriminate.
Qed.

Lemma bucketRequestTimes_only_overflow_witness :
  bucketRequestTimes 64 10 (replicate 11 0) (10 * 1000000)
  = Some ([0; 0; 0; 0; 0; 0; 0; 0; 0; 0; 1], true) /\
  GoInt.div64 (10 * 1000000) 1000000 < 50.
Proof.
  assert (Hrun : bucketRequestTimes 64 10 (replicate 11 0) (10 * 1000000)
                 = Some ([0; 0; 0; 0; 0; 0; 0; 0; 0; 0; 1], true))
    by (vm_compute; reflexivity).
  split; [exact Hrun|].
  exact (proj1 (bucketRequestTimes_only_overflow 64 10 (replicate 11 0)
                  (10 * 1000000) _ _ ltac:(lia) ltac:(vm_compute; reflexivity)
                  ltac:(lia) Hrun)).
Defined.

(** From bucket 58 on the threshold [50*(1<<bucket)] no longer fits an
    [int64]: at 58 it wraps to a negative number. *)
Lemma threshold_58 : GoInt.int64 (50 * GoInt.shl64 1 58) = -4035225266123964416.
Proof. reflexivity. Qed.

Lemma bucketLoop_wraps ms limit n bucket :
  - 4035225266123964416 <= ms < 50 -> 0 <= bucket <= 58 -> 58 < limit ->
  (58 - bucket < Z.of_nat n) ->
  bucketLoop ms limit n bucket = 57.
Proof.
  intros Hms. revert bucket.
  induction n as [|n IH]; intros bucket Hb Hl Hn; cbn [bucketLoop]; [lia|].
  destruct (Z.ltb_spec bucket limit); [|lia].
  destruct (Z.eq_dec bucket 58) as [->|Hne].
  - rewrite threshold_58.
    destruct (Z.geb_spec ms (-4035225266123964416)); [reflexivity | lia].
  - rewrite threshold_exact by lia.
    assert (Hp : 1 <= 2 ^ bucket).
    { pose proof (Z.pow_pos_nonneg 2 bucket). lia. }
    destruct (Z.geb_spec ms (50 * 2 ^ bucket)); [lia|].
    apply IH; lia.
Qed.

(** X15.  With 58 or more buckets configured, the threshold of bucket 58
    overflows [int64] and compares below every duration: a request of less
    than 50 ms is counted in cell 57, and is not logged as slow. *)
Theorem bucketRequestTimes_many_buckets intSize B tb t x :
  58 <= B -> B + 1 < 2 ^ (intSize - 1) -> 1 < intSize ->
  - 2 ^ 63 <= t < 50 * 1000000 ->
  tb !! 57%nat = Some x ->
  bucketRequestTimes intSize B tb t
  = Some (<[57%nat := GoInt.int64 (x + 1)]> tb, false).
Proof.
  intros HB Hfit Hsz Ht Hx. unfold bucketRequestTimes.
  assert (Hp : 0 < 2 ^ (intSize - 1)) by (apply Z.pow_pos_nonneg; lia).
  rewrite (wrap_small intSize (B + 1)) by lia.
  assert (Hms : - 4035225266123964416 <= GoInt.div64 t 1000000 < 50).
  { unfold GoInt.div64, GoInt.int64.
    change (2 ^ 63) with 9223372036854775808 in Ht.
    assert (Hq : -9223372036855 <= t ÷ 1000000 < 50).
    { pose proof (Z.quot_rem' t 1000000) as Hqr.
      destruct (Z.le_ge_cases 0 t) as [Hpos|Hneg].
      - pose proof (Z.rem_bound_pos t 1000000 Hpos ltac:(lia)). lia.
      - pose proof (Z.rem_bound_pos_neg t 1000000 ltac:(lia) Hneg). lia. }
    rewrite wrap_small;
      [lia | lia | change (2 ^ (64 - 1)) with 9223372036854775808; lia]. }
  rewrite (bucketLoop_wraps _ (B + 1)) by lia.
  destruct (Z.ltb_spec 57 B); [|lia].
  rewrite (addBucket_in_range tb 57 x) by (lia || exact Hx).
  reflexivity.
Qed.

Lemma bucketRequestTimes_many_buckets_witness :
  bucketRequestTimes 64 60 (replicate 61 0) (10 * 1000000)
  = Some (<[57%nat := 1]> (replicate 61 0), false).
Proof.
  exact (bucketRequestTimes_many_buckets 64 60 (replicate 61 0) (10 * 1000000) 0
           ltac:(lia) ltac:(vm_compute; reflexivity) ltac:(lia)
           ltac:(vm_compute; split; [discriminate | reflexivity]) eq_refl).
Defined.

(** X16.  The bounds under which [main] registers the buckets with
    Graphite tile the durations: bucket 0 starts at 0, every bucket starts
    where the one before it ends, and bucket [i] ends at [50 * 2^i] ms as
    long as that fits an [int]. *)
Theorem bucket_bounds_tile intSize i :
  0 <= i ->
  bucketLower intSize 0 = 0 /\
  bucketLower intSize (i + 1) = bucketUpper intSize i /\
  (0 < intSize -> 50 * 2 ^ i < 2 ^ (intSize - 1) ->
   bucketUpper intSize i = 50 * 2 ^ i).
Proof.
  intros Hi. split; [reflexivity|]. split.
  - unfold bucketLower, bucketUpper.
    destruct (Z.eqb_spec (i + 1) 0); [lia|].
    replace (i + 1 - 1) with i by lia. reflexivity.
  - intros Hsz Hfit. unfold bucketUpper. rewrite Z.shiftl_1_l.
    assert (Hp : 0 < 2 ^ i) by (apply Z.pow_pos_nonneg; lia).
    rewrite (wrap_small intSize (2 ^ i)) by lia.
    apply wrap_small; lia.
Qed.

Lemma bucket_bounds_tile_witness :
  bucketLower 64 4 = bucketUpper 64 3 /\ bucketUpper 64 3 = 400.
Proof.
  destruct (bucket_bounds_tile 64 3 ltac:(lia)) as (_ & Htile & Hexact).
  split; [exact Htile|].
  exact (Hexact ltac:(lia) ltac:(vm_compute; reflexivity)).
Defined.

(** ** Startup *)

Lemma host_port_empty a b : a ++ ":" ++ b = ":" <-> a = "" /\ b = "".
Proof.
  split.
  - destruct a as [|c a]; cbn.
    + intros H. injection H as H. auto.
    + intros H. injection H as _ H. destruct a; discriminate H.
  - intros [-> ->]. reflexivity.
Qed.

(** X17.  The Graphite settings after [main] has filled them in: pattern
    and prefix are never empty and the interval is the configured one; a
    configured host is kept; without one the host is
    GRAPHITEHOST:GRAPHITEPORT from the environment, unless both variables
    are empty, which is the only case that leaves the host empty (and
    Graphite unregistered).  Filling in twice changes nothing more. *)
Theorem graphiteDefaults_fallbacks env g :
  let g' := graphiteDefaults env g in
  Pattern g' <> "" /\
  GraphitePrefix g' <> "" /\
  Interval g' = Interval g /\
  (Host g <> "" -> Host g' = Host g) /\
  (Host g = "" ->
   Host g' = if bool_decide (getenv env "GRAPHITEHOST" = "" /\
                             getenv env "GRAPHITEPORT" = "")
             then ""
             else getenv env "GRAPHITEHOST" ++ ":" ++ getenv env "GRAPHITEPORT") /\
  (Host g' = "" <->
   Host g = "" /\ getenv env "GRAPHITEHOST" = "" /\ getenv env "GRAPHITEPORT" = "") /\
  graphiteDefaults env g' = g'.
Proof.
  cbv zeta. unfold graphiteDefaults. cbn [Pattern Host Interval GraphitePrefix].
  pose proof (host_port_empty (getenv env "GRAPHITEHOST") (getenv env "GRAPHITEPORT"))
    as Hhp.
  repeat apply conj.
  - case_bool_decide; [discriminate | assumption].
  - case_bool_decide; [discriminate | assumption].
  - reflexivity.
  - intros Hh. rewrite bool_decide_eq_false_2 by exact Hh. reflexivity.
  - intros Hh. rewrite (bool_decide_eq_true_2 _ Hh).
    repeat case_bool_decide; try reflexivity; tauto.
  - repeat case_bool_decide; try tauto.
    intros Hempty. destruct (getenv env "GRAPHITEHOST"); discriminate Hempty.
  - intros [Hh He]. rewrite (bool_decide_eq_true_2 _ Hh).
    rewrite bool_decide_eq_true_2 by tauto. exact Hh.
  - repeat case_bool_decide; try reflexivity; try tauto; f_equal; congruence.
Qed.


Lemma main_loaded intSize env c :
  loaded env c -> Backends c <> [] -> applyLoggerErr env (Logger c) = false ->
  main intSize env initialProcess = mainServe intSize env c (configured c).
Proof.
  intros (Hlog & Hflag & cfg & Hread & Hyaml) Hne Happly.
  cbv [main mainConfigured when fatal emit getConfig setConfig
       setSearchConfigured hstop hbind hret initialProcess].
  rewrite Hlog, bool_decide_eq_false_2 by exact Hflag.
  rewrite Hread. cbn. rewrite Hyaml. cbn.
  assert (Hlen : length (Backends c) <> 0%nat)
    by (destruct (Backends c); [congruence | discriminate]).
  rewrite (bool_decide_eq_false_2 _ Hlen). cbn.
  rewrite Happly. reflexivity.
Qed.

Ltac run_startup :=
  cbv [hbind hret hstop when fatal emit getConfig setConfig setTimeBuckets
       setSearchConfigured config searchConfigured timeBuckets events
       configured negb fst snd].



(** X20.  [main] starts the server last and only after everything else:
    if the server was started at all, it listens on [config.Listen], the
    backend list was not empty, the logger configuration applied, the
    histogram was allocated, the pidfile (when one was asked for) was
    written, and before the start of the server the engine was
    constructed from the configured backends and all four routes were
    registered. *)
Theorem main_serves_last intSize env c addr :
  loaded env c ->
  let r := main intSize env initialProcess in
  In (EvServe addr) (events (fst r)) ->
  addr = Listen c /\
  Backends c <> [] /\
  applyLoggerErr env (Logger c) = false /\
  0 <= GoInt.wrap intSize (Buckets c + 1) /\
  (flagPid env <> "" -> pidfileWriteErr env = false) /\
  exists before,
    events (fst r) = (before ++ [EvServe (Listen c)])%list /\
    (forall a, ~ In (EvServe a) before) /\
    In (EvNewZipper (Backends c) (CarbonSearch c)) before /\
    (forall route,
       In route ["/metrics/find/"; "/render/"; "/info/"; "/lb_check"] ->
       In (EvHandleFunc route) before) /\
    (flagPid env <> "" -> In (EvPidfileWrite (flagPid env)) before).
Proof.
  intros Hl. cbv zeta.
  destruct (Backends c) as [|b bs] eqn:Hb.
  { destruct Hl as (Hlog & Hflag & cfg & Hread & Hyaml).
    cbv [main mainConfigured when fatal emit getConfig setConfig
         setSearchConfigured hstop hbind hret initialProcess].
    rewrite Hlog, bool_decide_eq_false_2 by exact Hflag.
    rewrite Hread. cbn. rewrite Hyaml. cbn. rewrite Hb. cbn.
    rewrite (bool_decide_eq_true_2 (0%nat = 0%nat)) by reflexivity. cbn. tauto. }
  destruct (applyLoggerErr env (Logger c)) eqn:Happly.
  { destruct Hl as (Hlog & Hflag & cfg & Hread & Hyaml).
    cbv [main mainConfigured when fatal emit getConfig setConfig
         setSearchConfigured hstop hbind hret initialProcess].
    rewrite Hlog, bool_decide_eq_false_2 by exact Hflag.
    rewrite Hread. cbn. rewrite Hyaml. cbn. rewrite Hb. cbn.
    rewrite bool_decide_eq_false_2 by discriminate.
    rewrite Happly. cbn. intuition discriminate. }
  rewrite (main_loaded intSize env c Hl) by (rewrite ?Hb; congruence).
  unfold mainServe. rewrite Hb.
  destruct (Z.ltb_spec (GoInt.wrap intSize (Buckets c + 1)) 0) as [Hn|Hn].
  { run_startup. cbn. intuition discriminate. }
  destruct (bool_decide (Host (graphiteDefaults env (Graphite c)) = ""));
  case_bool_decide;
  destruct (pidfileWriteErr env); destruct (serveErr env);
  run_startup; cbn [app];
  intros Hin; cbn in Hin;
  repeat (destruct Hin as [Hin|Hin]; try discriminate Hin);
  try contradiction;
  injection Hin as <-;
  (split; [reflexivity|]); (split; [discriminate|]); (split; [reflexivity|]);
  (split; [exact Hn|]); (split; [congruence|]);
  (match goal with |- exists before, ?l = _ /\ _ => exists (removelast l) end);
  cbn; (split; [reflexivity|]);
  (split; [intros a Ha; intuition discriminate|]);
  (split; [auto 30|]);
  (split; [intros route Hr; intuition (subst; auto 30)|]);
  intros Hpid; auto 30; congruence.
Qed.

Lemma main_serves_last_witness :
  let c := Examples.fileConfig ["http://a:8080"] (CarbonSearch defaultConfig) in
  In (EvServe ":8080") (events (fst (main 64 (Examples.env c) initialProcess))) /\
  exists before,
    events (fst (main 64 (Examples.env c) initialProcess))
    = (before ++ [EvServe ":8080"])%list /\
    In (EvNewZipper ["http://a:8080"] (CarbonSearch defaultConfig)) before.
Proof.
  intros c.
  assert (Hl : loaded (Examples.env c) c).
  { split; [reflexivity|]. split; [discriminate|].
    exists "backends: ...". split; reflexivity. }
  assert (Hin : In (EvServe ":8080")
                   (events (fst (main 64 (Examples.env c) initialProcess)))).
  { vm_compute. auto 30. }
  split; [exact Hin|].
  destruct (main_serves_last 64 (Examples.env c) c ":8080" Hl Hin)
    as (_ & _ & _ & _ & _ & before & Hev & _ & Hz & _).
  exists before. split; [exact Hev | exact Hz].
Defined.
